(** * Portfolio performance tracker: a shallow embedding of
      [portfolio_tracker.py] and the properties checked against it.

    The script reads a table of holdings, fetches one closing price per
    distinct ticker, adds five derived columns to the table in place, prints
    a summary, writes the table out as a report and draws a bar chart.

    Numbers are IEEE 754 binary64 values (pandas' [float64]), taken from the
    executable specification of floating point of the standard library, so
    that division by zero, infinities and NaN behave as they do in numpy. *)

From Stdlib Require Import ZArith String Ascii List Bool Lia.
From Stdlib Require Import Floats.SpecFloat.
From stdpp Require Import base option list countable strings gmap sorting.

Local Open Scope string_scope.
Local Open Scope list_scope.

(** ** binary64 *)

Module F64.

Definition prec : Z := 53.
Definition emax : Z := 1024.

Definition float : Type := spec_float.

Definition add : float -> float -> float := SFadd prec emax.
Definition sub : float -> float -> float := SFsub prec emax.
Definition mul : float -> float -> float := SFmul prec emax.
Definition div : float -> float -> float := SFdiv prec emax.

(** [x < y] and [x <= y]; both are [false] as soon as one side is NaN. *)
Definition ltb : float -> float -> bool := SFltb.
Definition leb : float -> float -> bool := SFleb.
Definition eqb : float -> float -> bool := SFeqb.

(** The float nearest to an integer (exact below 2^53). *)
Definition of_Z (z : Z) : float := binary_normalize prec emax z 0 false.

Definition zero : float := S754_zero false.
Definition neg_zero : float := S754_zero true.
Definition nan : float := S754_nan.
Definition inf : float := S754_infinity false.
Definition hundred : float := of_Z 100.

Definition is_nan (x : float) : bool :=
  match x with S754_nan => true | _ => false end.

Definition is_zero (x : float) : bool :=
  match x with S754_zero _ => true | _ => false end.


Definition is_inf (x : float) : bool :=
  match x with S754_infinity _ => true | _ => false end.

(** Exact comparison of a finite float [m * 2^e] with the rational
    [n / d] ([d > 0]): [cmp_ratio x n d] is the comparison of [x] with
    [n / d], or [None] when [x] is not finite. *)
Definition cmp_ratio (x : float) (n : Z) (d : positive) : option comparison :=
  match x with
  | S754_zero _ => Some (0 ?= n)%Z
  | S754_finite s m e =>
      let sm := if s then Z.neg m else Z.pos m in
      Some (match e with
            | Z0 => (sm * Z.pos d ?= n)%Z
            | Z.pos p => (sm * 2 ^ Z.pos p * Z.pos d ?= n)%Z
            | Z.neg p => (sm * Z.pos d ?= n * 2 ^ Z.pos p)%Z
            end)
  | _ => None
  end.

#[global] Instance float_eq_dec : EqDecision float.
Proof. solve_decision. Defined.

Definition float_enc (x : float) : bool + bool + unit + bool * positive * Z :=
  match x with
  | S754_zero s => inl (inl (inl s))
  | S754_infinity s => inl (inl (inr s))
  | S754_nan => inl (inr tt)
  | S754_finite s m e => inr (s, m, e)
  end.

Definition float_dec (c : bool + bool + unit + bool * positive * Z) : float :=
  match c with
  | inl (inl (inl s)) => S754_zero s
  | inl (inl (inr s)) => S754_infinity s
  | inl (inr _) => S754_nan
  | inr (s, m, e) => S754_finite s m e
  end.

#[global] Instance float_countable : Countable float.
Proof.
  refine (inj_countable' float_enc float_dec _).
  intros []; reflexivity.
Defined.

End F64.

Abbreviation float := F64.float.

(** ** pandas values: cells, Series, DataFrame *)

(** A cell of a table read by [pd.read_csv]: text, or a [float64] number
    (a blank cell is the number NaN). The tables covered are those whose
    numeric columns are [float64]. pandas keeps a column of whole numbers
    as [int64]: its sums and products are the same numbers as long as they
    stay below 2^53 in size, except that [int64] has no negative zero;
    beyond that size [int64] wraps around, which is not covered. *)
Inductive cell : Type :=
  | CStr (s : string)
  | CNum (x : float).

#[global] Instance cell_eq_dec : EqDecision cell.
Proof. solve_decision. Defined.

Definition cell_enc (c : cell) : string + float :=
  match c with CStr s => inl s | CNum x => inr x end.

Definition cell_dec (c : string + float) : cell :=
  match c with inl s => CStr s | inr x => CNum x end.

#[global] Instance cell_countable : Countable cell.
Proof.
  refine (inj_countable' cell_enc cell_dec _).
  intros []; reflexivity.
Defined.

Definition Series : Type := list cell.

(** Columns in their order, each under its label. Frames that come from
    [pd.read_csv] have distinct labels and columns of one length. *)
Definition DataFrame : Type := list (string * Series).

Definition columns (df : DataFrame) : list string := map fst df.

(** Python exceptions the script can run into. *)
Inductive exn : Type :=
  | KeyError (label : string)
  | TypeError
  | ValueError
  | ParserError.

Inductive outcome (A : Type) : Type :=
  | Ok (a : A)
  | Raise (e : exn).
Arguments Ok {A} a.
Arguments Raise {A} e.

(** [df[label]] *)
Fixpoint getitem (df : DataFrame) (label : string) : outcome Series :=
  match df with
  | [] => Raise (KeyError label)
  | (l, s) :: rest => if String.eqb l label then Ok s else getitem rest label
  end.

(** [df[label] = s]: an existing column is replaced where it stands, a new
    one is appended after the last column. *)
Fixpoint setitem (df : DataFrame) (label : string) (s : Series) : DataFrame :=
  match df with
  | [] => [(label, s)]
  | (l, old) :: rest =>
      if String.eqb l label then (l, s) :: rest
      else (l, old) :: setitem rest label s
  end.

(** [s.unique().tolist()]: the distinct values in order of first appearance. *)
Fixpoint unique_acc (seen : list cell) (s : Series) : list cell :=
  match s with
  | [] => []
  | c :: rest =>
      if bool_decide (c ∈ seen) then unique_acc seen rest
      else c :: unique_acc (c :: seen) rest
  end.

Definition Series_unique (s : Series) : list cell := unique_acc [] s.

(** [s.map(d)] with a dict [d]: a value that is not a key of [d] becomes NaN. *)
Definition Series_map (s : Series) (d : gmap cell float) : Series :=
  map (fun c => CNum (default F64.nan (d !! c))) s.

(** Element-wise arithmetic. Text cells do not combine with [float64]
    numbers, nor with text, under [*], [-] and [/]: Python raises
    [TypeError] at the first such pair. (Text times an [int64] number would
    be repeated text; numbers are [float64] here.) *)
Definition cell_op (op : float -> float -> float) (a b : cell) : outcome cell :=
  match a, b with
  | CNum x, CNum y => Ok (CNum (op x y))
  | _, _ => Raise TypeError
  end.

Fixpoint Series_op (op : float -> float -> float) (a b : Series) : outcome Series :=
  match a, b with
  | x :: a', y :: b' =>
      match cell_op op x y with
      | Ok c =>
          match Series_op op a' b' with
          | Ok r => Ok (c :: r)
          | Raise e => Raise e
          end
      | Raise e => Raise e
      end
  | _, _ => Ok []
  end.

Definition Series_mul := Series_op F64.mul.
Definition Series_sub := Series_op F64.sub.
Definition Series_div := Series_op F64.div.

(** [s * k] for a number [k] *)
Fixpoint Series_scale (s : Series) (k : float) : outcome Series :=
  match s with
  | [] => Ok []
  | x :: s' =>
      match cell_op F64.mul x (CNum k) with
      | Ok c =>
          match Series_scale s' k with
          | Ok r => Ok (c :: r)
          | Raise e => Raise e
          end
      | Raise e => Raise e
      end
  end.

(** [s.fillna(v)]: only NaN cells are replaced; infinities are kept. *)
Definition fillna_cell (v : float) (c : cell) : cell :=
  match c with
  | CNum x => if F64.is_nan x then CNum v else c
  | CStr _ => c
  end.

Definition Series_fillna (s : Series) (v : float) : Series :=
  map (fillna_cell v) s.

(** [x] with NaN replaced by 0.0 *)
Definition fillna0 (x : float) : float := if F64.is_nan x then F64.zero else x.

(** The numbers of a column of numbers, the texts of a column of text. *)
Fixpoint as_floats (s : Series) : option (list float) :=
  match s with
  | [] => Some []
  | CNum x :: s' => cons x <$> as_floats s'
  | CStr _ :: _ => None
  end.

Fixpoint as_texts (s : Series) : option (list string) :=
  match s with
  | [] => Some []
  | CStr t :: s' => cons t <$> as_texts s'
  | CNum _ :: _ => None
  end.

(** numpy's sum of an array of [float64], as [pairwise_sum] in its
    [loops_utils.h.src] has it. Fewer than eight values are added first to
    last, starting from -0.0. Up to 128 values are added in eight running
    sums, value [i] going to sum [i mod 8]; the eight are then added as
    ((r0+r1)+(r2+r3))+((r4+r5)+(r6+r7)) and the values left over after the
    last full block of eight are added to that, first to last. More than
    128 values are cut in two, the first part being half the length rounded
    down to a multiple of eight, and the sums of the parts are added. *)
Fixpoint accumulate (k : nat) (r a : list float) : list float * list float :=
  match k with
  | O => (r, a)
  | S k' => accumulate k' (zip_with F64.add r (take 8 a)) (drop 8 a)
  end.

Definition block_sum (a : list float) : float :=
  let '(r, rest) := accumulate (length a / 8 - 1)%nat (take 8 a) (drop 8 a) in
  match r with
  | [r0; r1; r2; r3; r4; r5; r6; r7] =>
      fold_left F64.add rest
        (F64.add (F64.add (F64.add r0 r1) (F64.add r2 r3))
                 (F64.add (F64.add r4 r5) (F64.add r6 r7)))
  | _ => fold_left F64.add a F64.neg_zero
  end.

(** [fuel] bounds the number of times the array is cut in two; the length
    of the array is more than enough (see [pairwise_sum_split]). *)
Fixpoint pairwise_sum_fuel (fuel : nat) (a : list float) : float :=
  match fuel with
  | S fuel' =>
      if Nat.ltb 128 (length a) then
        let n2 := (length a / 2 - (length a / 2) mod 8)%nat in
        F64.add (pairwise_sum_fuel fuel' (take n2 a))
                (pairwise_sum_fuel fuel' (drop n2 a))
      else block_sum a
  | O => block_sum a
  end.

Definition pairwise_sum (a : list float) : float := pairwise_sum_fuel (length a) a.

(** [a.sum()]: the reduction starts from the identity 0.0 and adds the
    pairwise sum of the whole array to it. *)
Definition np_sum (a : list float) : float := F64.add F64.zero (pairwise_sum a).

(** [s.sum()]: in a column of numbers the missing values are replaced by
    0.0 and the column is summed by numpy; a column of text gives the
    texts joined; text among numbers (a blank counting as the number 0)
    cannot be added and raises [TypeError]. *)
Definition Series_sum (s : Series) : outcome cell :=
  match as_floats s with
  | Some xs => Ok (CNum (np_sum (map fillna0 xs)))
  | None =>
      match as_texts s with
      | Some ts => Ok (CStr (String.concat EmptyString ts))
      | None => Raise TypeError
      end
  end.

(** [df.groupby(label)[value].sum()]: one entry per distinct key, keys in
    ascending order, rows with a missing key dropped. Text keys are ordered
    as Python orders [str]; numbers are put before text. Each group of
    numbers is summed as [group_sum] of pandas (2.1 and later) does: first
    row to last with Kahan's compensation, missing values left out, the
    compensation set back to 0 when it becomes NaN. A group with text in
    it makes line 139 raise [TypeError] at the division, before anything
    is drawn; here it is raised where the group is summed. *)
Definition cell_ltb (a b : cell) : bool :=
  match a, b with
  | CStr x, CStr y => String.ltb x y
  | CNum x, CNum y => F64.ltb x y
  | CNum _, CStr _ => true
  | CStr _, CNum _ => false
  end.

Definition is_missing (c : cell) : bool :=
  match c with CNum x => F64.is_nan x | CStr _ => false end.

Fixpoint group_insert (k v : cell) (gs : list (cell * Series)) : list (cell * Series) :=
  match gs with
  | [] => [(k, [v])]
  | (k', vs) :: rest =>
      if bool_decide (k = k') then (k', vs ++ [v]) :: rest
      else if cell_ltb k k' then (k, [v]) :: gs
      else (k', vs) :: group_insert k v rest
  end.

Fixpoint group_rows (keys vals : Series) (gs : list (cell * Series)) : list (cell * Series) :=
  match keys, vals with
  | k :: keys', v :: vals' =>
      group_rows keys' vals' (if is_missing k then gs else group_insert k v gs)
  | _, _ => gs
  end.

Definition kahan_step (acc : float * float) (x : float) : float * float :=
  if F64.is_nan x then acc
  else
    let y := F64.sub x (snd acc) in
    let t := F64.add (fst acc) y in
    let c := F64.sub (F64.sub t (fst acc)) y in
    (t, if F64.is_nan c then F64.zero else c).

Definition group_total (xs : list float) : float :=
  fst (fold_left kahan_step xs (F64.zero, F64.zero)).

Definition group_sum (vs : Series) : outcome float :=
  match as_floats vs with
  | Some xs => Ok (group_total xs)
  | None => Raise TypeError
  end.

Fixpoint sum_groups (gs : list (cell * Series)) : outcome (list (cell * float)) :=
  match gs with
  | [] => Ok []
  | (k, vs) :: rest =>
      match group_sum vs with
      | Ok t =>
          match sum_groups rest with
          | Ok r => Ok ((k, t) :: r)
          | Raise e => Raise e
          end
      | Raise e => Raise e
      end
  end.

Definition groupby_sum (keys vals : Series) : outcome (list (cell * float)) :=
  sum_groups (group_rows keys vals []).

(** [s.sort_values(ascending=False)]: largest first, NaN last. Entries of
    equal value keep their order here; pandas promises no order for them. *)
Definition strictly_before (y x : float) : bool :=
  if F64.is_nan y then false
  else if F64.is_nan x then true
  else F64.ltb x y.

Fixpoint insert_desc (x : cell * float) (l : list (cell * float)) : list (cell * float) :=
  match l with
  | [] => [x]
  | y :: l' =>
      if strictly_before (snd y) (snd x) then y :: insert_desc x l'
      else x :: l
  end.

Definition sort_values_desc (l : list (cell * float)) : list (cell * float) :=
  foldr insert_desc [] l.

(** [a.max()] of a numpy array: an empty array has no maximum
    ([ValueError]); a NaN anywhere makes the maximum NaN. *)
Definition np_maximum (a b : float) : float :=
  if F64.is_nan a then a
  else if F64.is_nan b then b
  else if F64.ltb a b then b else a.

Definition ndarray_max (a : list float) : outcome float :=
  match a with
  | [] => Raise ValueError
  | x :: rest => Ok (fold_left np_maximum rest x)
  end.

(** ** The world the script runs in *)

(** One bar of the chart: its tick label, its height, and the number handed
    to the colour map for its colour. *)
Record bar : Type := Bar { bar_label : cell; bar_height : float; bar_shade : float }.

Inductive file : Type :=
  | Csv (table : DataFrame)
  | Png (bars : list bar).

(** What the market-data provider answers for a ticker: a history whose
    first close is [p], an empty history, or an exception with message [e]
    raised anywhere inside the [try] block. *)
Inductive history : Type :=
  | Close0 (p : float)
  | EmptyHist
  | Failure (e : string).

(** A printed line, as the pieces of its f-string. *)
Inductive fragment : Type :=
  | Lit (s : string)
  | Arg (c : cell)
  | Fixed2 (x : float).

Definition message : Type := list fragment.

(** DataFrame objects live in [heap] and are passed around by reference. *)
Definition ref : Type := nat.

Record world : Type := World {
  heap : list DataFrame;
  files : gmap string file;
  console : list message;
  requests : list cell;
  market : cell -> history
}.

Definition set_heap (h : list DataFrame) (w : world) : world :=
  World h (files w) (console w) (requests w) (market w).
Definition set_files (f : gmap string file) (w : world) : world :=
  World (heap w) f (console w) (requests w) (market w).
Definition set_console (c : list message) (w : world) : world :=
  World (heap w) (files w) c (requests w) (market w).
Definition set_requests (r : list cell) (w : world) : world :=
  World (heap w) (files w) (console w) r (market w).

(** Computations of the script: they change the world and return a value
    or raise. *)
Definition M (A : Type) : Type := world -> outcome A * world.

#[global] Instance M_ret : MRet M := fun A a w => (Ok a, w).
#[global] Instance M_bind : MBind M := fun A B f m w =>
  match m w with
  | (Ok a, w') => f a w'
  | (Raise e, w') => (Raise e, w')
  end.

Definition lift {A : Type} (o : outcome A) : M A := fun w => (o, w).

Definition print (msg : message) : M unit :=
  fun w => (Ok tt, set_console (console w ++ [msg]) w).

(** [os.path.exists(path)] *)
Definition path_exists (path : string) : M bool :=
  fun w => (Ok (bool_decide (is_Some (files w !! path))), w).

(** [pd.read_csv(path)]: a new DataFrame object. *)
Definition read_csv (path : string) : M ref :=
  fun w =>
    match files w !! path with
    | Some (Csv table) => (Ok (length (heap w)), set_heap (heap w ++ [table]) w)
    | _ => (Raise ParserError, w)
    end.

Definition write_file (path : string) (f : file) : M unit :=
  fun w => (Ok tt, set_files (<[path := f]> (files w)) w).

(** The DataFrame a reference stands for. *)
Definition deref (r : ref) : M DataFrame :=
  fun w => (Ok (default ([] : DataFrame) (heap w !! r)), w).

(** [df[label]] and [df[label] = s] on the object behind [r]. *)
Definition df_get (r : ref) (label : string) : M Series :=
  df ← deref r; lift (getitem df label).

Definition df_set (r : ref) (label : string) (s : Series) : M unit :=
  fun w => (Ok tt, set_heap (alter (fun df => setitem df label s) r (heap w)) w).

(** [yf.Ticker(t).history(period="1d")] up to the first close. *)
Definition yf_history (t : cell) : M history :=
  fun w => (Ok (market w t), set_requests (requests w ++ [t]) w).

(** ** The script *)

Definition PORTFOLIO_CSV_PATH : string := "portfolio.csv".
Definition REPORT_CSV_PATH : string := "portfolio_performance_report.csv".
Definition CHART_PNG_PATH : string := "portfolio_distribution.png".

Definition required_columns : list string := ["Ticker"; "Quantity"; "PurchasePrice"].

(** The result is [None] when the file is not found or lacks a required
    column, as in the source. *)
Definition load_portfolio (file_path : string) : M (option ref) :=
  found ← path_exists file_path;
  if negb found then
    print [Lit "Error: Portfolio file not found at '"; Lit file_path; Lit "'"];;
    print [Lit "Please create it with columns: Ticker, Quantity, PurchasePrice"];;
    mret None
  else
    print [Lit "Loading portfolio from '"; Lit file_path; Lit "'..."];;
    portfolio_df ← read_csv file_path;
    df ← deref portfolio_df;
    if negb (forallb (fun col => bool_decide (col ∈ columns df)) required_columns) then
      print [Lit "Error: The CSV file must contain the columns: ";
             Lit (String.concat ", " required_columns)];;
      mret None
    else
      mret (Some portfolio_df).

(** The loop of [get_live_prices]; [prices] is the dict built so far. *)
Fixpoint fetch_prices (tickers : list cell) (prices : gmap cell float) : M (gmap cell float) :=
  match tickers with
  | [] => mret prices
  | ticker_symbol :: rest =>
      hist ← yf_history ticker_symbol;
      match hist with
      | Close0 p => fetch_prices rest (<[ticker_symbol := p]> prices)
      | EmptyHist =>
          print [Lit "Warning: Could not retrieve data for ticker '"; Arg ticker_symbol;
                 Lit "'. It might be invalid."];;
          fetch_prices rest (<[ticker_symbol := F64.zero]> prices)
      | Failure e =>
          print [Lit "An error occurred while fetching data for "; Arg ticker_symbol;
                 Lit ": "; Lit e];;
          fetch_prices rest (<[ticker_symbol := F64.zero]> prices)
      end
  end.

Definition get_live_prices (tickers : list cell) : M (gmap cell float) :=
  print [Lit "Fetching live market data..."];;
  fetch_prices tickers ∅.

(** Lines 77 to 87 of the source: the five derived columns, each assigned
    to the DataFrame behind [portfolio_df]. *)
Definition derive_columns (portfolio_df : ref) (live_prices : gmap cell float) : M unit :=
  ticker ← df_get portfolio_df "Ticker";
  df_set portfolio_df "CurrentPrice" (Series_map ticker live_prices);;
  quantity ← df_get portfolio_df "Quantity";
  purchase_price ← df_get portfolio_df "PurchasePrice";
  purchase_value ← lift (Series_mul quantity purchase_price);
  df_set portfolio_df "PurchaseValue" purchase_value;;
  quantity ← df_get portfolio_df "Quantity";
  current_price ← df_get portfolio_df "CurrentPrice";
  current_value ← lift (Series_mul quantity current_price);
  df_set portfolio_df "CurrentValue" current_value;;
  current_value ← df_get portfolio_df "CurrentValue";
  purchase_value ← df_get portfolio_df "PurchaseValue";
  profit_loss ← lift (Series_sub current_value purchase_value);
  df_set portfolio_df "ProfitLoss" profit_loss;;
  profit_loss ← df_get portfolio_df "ProfitLoss";
  purchase_value ← df_get portfolio_df "PurchaseValue";
  ratio ← lift (Series_div profit_loss purchase_value);
  percentage ← lift (Series_scale ratio F64.hundred);
  df_set portfolio_df "PercentageReturn" percentage;;
  percentage ← df_get portfolio_df "PercentageReturn";
  df_set portfolio_df "PercentageReturn" (Series_fillna percentage F64.zero).

Definition calculate_performance (portfolio_df : ref) : M ref :=
  print [Lit "Calculating portfolio performance..."];;
  ticker ← df_get portfolio_df "Ticker";
  live_prices ← get_live_prices (Series_unique ticker);
  derive_columns portfolio_df live_prices;;
  mret portfolio_df.

(** The totals of lines 99 to 108: purchase value, current value,
    profit/loss and percentage return. *)
Record totals : Type := Totals {
  total_purchase_value : cell;
  total_current_value : cell;
  total_profit_loss : cell;
  total_percentage_return : float
}.

(** [c > 0]: text does not compare with a number. *)
Definition is_positive (c : cell) : outcome bool :=
  match c with
  | CNum x => Ok (F64.ltb F64.zero x)
  | CStr _ => Raise TypeError
  end.

(** [(part / whole) * 100] *)
Definition percent_of (part whole : cell) : outcome float :=
  match part, whole with
  | CNum a, CNum b => Ok (F64.mul (F64.div a b) F64.hundred)
  | _, _ => Raise TypeError
  end.

Definition compute_totals (performance_df : ref) : M totals :=
  purchase_value ← df_get performance_df "PurchaseValue";
  total_purchase_value ← lift (Series_sum purchase_value);
  current_value ← df_get performance_df "CurrentValue";
  total_current_value ← lift (Series_sum current_value);
  profit_loss ← df_get performance_df "ProfitLoss";
  total_profit_loss ← lift (Series_sum profit_loss);
  above ← lift (is_positive total_purchase_value);
  total_percentage_return ←
    (if above : bool then lift (percent_of total_profit_loss total_purchase_value)
     else mret F64.zero);
  mret (Totals total_purchase_value total_current_value total_profit_loss
               total_percentage_return).

(** [f"{c:,.2f}"]: the format is for numbers; text raises [ValueError]. *)
Definition fixed2 (c : cell) : outcome fragment :=
  match c with
  | CNum x => Ok (Fixed2 x)
  | CStr _ => Raise ValueError
  end.

Definition rule : string := "========================================".

Definition generate_summary_and_report (performance_df : ref) (file_path : string) : M unit :=
  t ← compute_totals performance_df;
  print [Lit (String (ascii_of_nat 10) rule)];;
  print [Lit "           PORTFOLIO SUMMARY"];;
  print [Lit rule];;
  value ← lift (fixed2 (total_current_value t));
  print [Lit "Total Portfolio Value: $"; value];;
  profit ← lift (fixed2 (total_profit_loss t));
  print [Lit "Total Profit/Loss: $"; profit];;
  print [Lit "Total Portfolio Return: "; Fixed2 (total_percentage_return t); Lit "%"];;
  print [Lit (rule ++ String (ascii_of_nat 10) EmptyString)];;
  print [Lit "Saving detailed performance report to '"; Lit file_path; Lit "'..."];;
  df ← deref performance_df;
  write_file file_path (Csv df).

(** Line 134 of the source: current value per ticker, largest first. *)
Definition chart_data (performance_df : ref) : M (list (cell * float)) :=
  ticker ← df_get performance_df "Ticker";
  current_value ← df_get performance_df "CurrentValue";
  sums ← lift (groupby_sum ticker current_value);
  mret (sort_values_desc sums).

Definition generate_visualization (performance_df : ref) (file_path : string) : M unit :=
  print [Lit "Generating portfolio distribution chart to '"; Lit file_path; Lit "'..."];;
  data ← chart_data performance_df;
  top ← lift (ndarray_max (map snd data));
  let bars := map (fun kv => Bar (fst kv) (snd kv) (F64.div (snd kv) top)) data in
  write_file file_path (Png bars).

Definition main : M unit :=
  print [Lit "--- Starting Portfolio Performance Tracker ---"];;
  portfolio ← load_portfolio PORTFOLIO_CSV_PATH;
  match portfolio with
  | None => print [Lit "--- Script execution failed. ---"]
  | Some portfolio =>
      performance_data ← calculate_performance portfolio;
      generate_summary_and_report performance_data REPORT_CSV_PATH;;
      generate_visualization performance_data CHART_PNG_PATH;;
      print [Lit (String (ascii_of_nat 10) "--- Portfolio analysis complete. ---")];;
      print [Lit "Report: '"; Lit REPORT_CSV_PATH; Lit "'"];;
      print [Lit "Chart: '"; Lit CHART_PNG_PATH; Lit "'"]
  end.

(** ** The table row by row *)

(** One line of the portfolio file. *)
Record HoldingRecord : Type := Holding {
  ticker : cell;
  quantity : float;
  purchasePrice : float
}.

(** What lines 78 to 87 compute in the row of a holding [h], given the
    dict [live_prices]. *)
Definition current_price (live_prices : gmap cell float) (h : HoldingRecord) : float :=
  default F64.nan (live_prices !! ticker h).

Definition purchase_value (h : HoldingRecord) : float :=
  F64.mul (quantity h) (purchasePrice h).

Definition current_value (live_prices : gmap cell float) (h : HoldingRecord) : float :=
  F64.mul (quantity h) (current_price live_prices h).

Definition profit_loss (live_prices : gmap cell float) (h : HoldingRecord) : float :=
  F64.sub (current_value live_prices h) (purchase_value h).

Definition percentage_return (live_prices : gmap cell float) (h : HoldingRecord) : float :=
  fillna0 (F64.mul (F64.div (profit_loss live_prices h) (purchase_value h)) F64.hundred).

Record EnrichedHolding : Type := Enriched {
  holding : HoldingRecord;
  currentPrice : float;
  purchaseValue : float;
  currentValue : float;
  profitLoss : float;
  percentageReturn : float
}.

Definition enrich (live_prices : gmap cell float) (h : HoldingRecord) : EnrichedHolding :=
  Enriched h (current_price live_prices h) (purchase_value h)
           (current_value live_prices h) (profit_loss live_prices h)
           (percentage_return live_prices h).

(** The column that holds [f] of every row. *)
Definition num_column {A : Type} (f : A -> float) (rows : list A) : Series :=
  map (fun a => CNum (f a)) rows.

(** [df] holds the holdings [hs]: its three required columns are their
    tickers, quantities and purchase prices, row by row. *)
Definition has_holdings (df : DataFrame) (hs : list HoldingRecord) : Prop :=
  getitem df "Ticker" = Ok (map ticker hs) /\
  getitem df "Quantity" = Ok (num_column quantity hs) /\
  getitem df "PurchasePrice" = Ok (num_column purchasePrice hs).

(** [df] holds the enriched holdings [es] in the columns the totals read. *)
Definition has_metrics (df : DataFrame) (es : list EnrichedHolding) : Prop :=
  getitem df "PurchaseValue" = Ok (num_column purchaseValue es) /\
  getitem df "CurrentValue" = Ok (num_column currentValue es) /\
  getitem df "ProfitLoss" = Ok (num_column profitLoss es).

Definition derived_columns : list string :=
  ["CurrentPrice"; "PurchaseValue"; "CurrentValue"; "ProfitLoss"; "PercentageReturn"].

Definition report_columns : list string :=
  ["Ticker"; "Quantity"; "PurchasePrice"; "CurrentPrice"; "PurchaseValue";
   "CurrentValue"; "ProfitLoss"; "PercentageReturn"].

(** [df] after the five assignments, for the holdings [hs]. *)
Definition with_metrics (df : DataFrame) (live_prices : gmap cell float)
    (hs : list HoldingRecord) : DataFrame :=
  setitem
    (setitem
      (setitem
        (setitem
          (setitem df "CurrentPrice" (num_column (current_price live_prices) hs))
          "PurchaseValue" (num_column purchase_value hs))
        "CurrentValue" (num_column (current_value live_prices) hs))
      "ProfitLoss" (num_column (profit_loss live_prices) hs))
    "PercentageReturn" (num_column (percentage_return live_prices) hs).

(** The labels of a table after a column [l] is assigned. *)
Definition add_label (cs : list string) (l : string) : list string :=
  if bool_decide (l ∈ cs) then cs else cs ++ [l].

(** The price [get_live_prices] records for an answer of the provider. *)
Definition price_of (h : history) : float :=
  match h with Close0 p => p | EmptyHist | Failure _ => F64.zero end.

(** The line printed for a ticker whose quote could not be had. *)
Definition notice (t : cell) (h : history) : list message :=
  match h with
  | Close0 _ => []
  | EmptyHist =>
      [[Lit "Warning: Could not retrieve data for ticker '"; Arg t;
        Lit "'. It might be invalid."]]
  | Failure e =>
      [[Lit "An error occurred while fetching data for "; Arg t; Lit ": "; Lit e]]
  end.

(** The dict and the lines the loop of [get_live_prices] builds, in closed
    form. *)
Definition quotes (mkt : cell -> history) (tickers : list cell)
    (prices : gmap cell float) : gmap cell float :=
  foldl (fun m t => <[t := price_of (mkt t)]> m) prices tickers.

Definition notices (mkt : cell -> history) (tickers : list cell) : list message :=
  flat_map (fun t => notice t (mkt t)) tickers.

(** The dict [calculate_performance] works with for the holdings [hs]. *)
Definition live_quotes (mkt : cell -> history) (hs : list HoldingRecord) : gmap cell float :=
  quotes mkt (Series_unique (map ticker hs)) ∅.

(** The plain sum of a list of numbers, first to last. *)
Definition fsum (l : list float) : float := fold_left F64.add l F64.zero.


(** The world with the DataFrame behind [r] replaced by [df]. *)
Definition upd (r : ref) (df : DataFrame) (w : world) : world :=
  set_heap (<[r := df]> (heap w)) w.

(** ** Concrete portfolios *)

Definition nums (l : list Z) : Series := map (fun z => CNum (F64.of_Z z)) l.

(** A fresh run: nothing on the console, no DataFrame yet, the portfolio
    file holding [table], the provider answering by [mkt]. *)
Definition fresh_world (table : DataFrame) (mkt : cell -> history) : world :=
  World [] {[ PORTFOLIO_CSV_PATH := Csv table ]} [] [] mkt.

(** A world in which [table] is already loaded, behind reference 0. *)
Definition loaded_world (table : DataFrame) (mkt : cell -> history) : world :=
  World [table] ∅ [] [] mkt.

(** Two lots of AAPL and one of GOOG, quoted at 170 and 2700. *)
Definition lots_table : DataFrame :=
  [("Ticker", [CStr "AAPL"; CStr "AAPL"; CStr "GOOG"]);
   ("Quantity", nums [10; 5; 2]%Z);
   ("PurchasePrice", nums [150; 160; 2800]%Z)].

Definition lots_market (t : cell) : history :=
  match t with
  | CStr "AAPL" => Close0 (F64.of_Z 170)
  | CStr "GOOG" => Close0 (F64.of_Z 2700)
  | _ => EmptyHist
  end.

(** The same market a day on which AAPL closes at 171. *)
Definition later_market (t : cell) : history :=
  match t with
  | CStr "AAPL" => Close0 (F64.of_Z 171)
  | CStr "GOOG" => Close0 (F64.of_Z 2700)
  | _ => EmptyHist
  end.

(** Ten shares received for free (purchase price 0), now quoted at 5. *)
Definition gift_table : DataFrame :=
  [("Ticker", [CStr "GIFT"]); ("Quantity", nums [10]%Z); ("PurchasePrice", nums [0]%Z)].

Definition gift_market (t : cell) : history :=
  match t with
  | CStr "GIFT" => Close0 (F64.of_Z 5)
  | _ => EmptyHist
  end.


(** A portfolio file with its header line and no holdings. *)
Definition empty_table : DataFrame :=
  [("Ticker", []); ("Quantity", []); ("PurchasePrice", [])].

(** A provider that knows no ticker. *)
Definition silent_market (t : cell) : history := EmptyHist.

(** A portfolio file with a fourth column of remarks. *)
Definition noted_table : DataFrame :=
  [("Ticker", [CStr "AAPL"]); ("Quantity", nums [10]%Z);
   ("PurchasePrice", nums [150]%Z); ("Notes", [CStr "first lot"])].

(** A portfolio file without the [Quantity] column. *)
Definition short_table : DataFrame :=
  [("Ticker", [CStr "AAPL"]); ("PurchasePrice", nums [150]%Z)].

(** The column [label] of the DataFrame behind [r] in [w]. *)
Definition column_of (w : world) (r : ref) (label : string) : outcome Series :=
  getitem (default ([] : DataFrame) (heap w !! r)) label.

(** The world after [lines] were printed and [reqs] were asked of the
    provider. *)
Definition logged (lines : list message) (reqs : list cell) (w : world) : world :=
  World (heap w) (files w) (console w ++ lines) (requests w ++ reqs) (market w).

(** The lines [calculate_performance] prints for the holdings [hs]. *)
Definition progress_lines (mkt : cell -> history) (hs : list HoldingRecord) : list message :=
  [[Lit "Calculating portfolio performance..."]; [Lit "Fetching live market data..."]]
  ++ notices mkt (Series_unique (map ticker hs)).

(** The totals of a list of enriched holdings, summed as [Series.sum]
    does. *)
Definition totals_of (es : list EnrichedHolding) : totals :=
  let tpv := np_sum (map (fun e => fillna0 (purchaseValue e)) es) in
  let tcv := np_sum (map (fun e => fillna0 (currentValue e)) es) in
  let tpl := np_sum (map (fun e => fillna0 (profitLoss e)) es) in
  Totals (CNum tpv) (CNum tcv) (CNum tpl)
    (if F64.ltb F64.zero tpv then F64.mul (F64.div tpl tpv) F64.hundred else F64.zero).

(** The lines [generate_summary_and_report] prints for a total current
    value, a total profit/loss and a percentage return that are numbers. *)
Definition summary_lines (value profit percentage : float) (file_path : string) : list message :=
  [[Lit (String (ascii_of_nat 10) rule)];
   [Lit "           PORTFOLIO SUMMARY"];
   [Lit rule];
   [Lit "Total Portfolio Value: $"; Fixed2 value];
   [Lit "Total Profit/Loss: $"; Fixed2 profit];
   [Lit "Total Portfolio Return: "; Fixed2 percentage; Lit "%"];
   [Lit (rule ++ String (ascii_of_nat 10) EmptyString)];
   [Lit "Saving detailed performance report to '"; Lit file_path; Lit "'..."]].

(** A computation leaves a part of the world as it found it, whatever it
    returns or raises. *)
Definition preserves {A X : Type} (proj : world -> X) (m : M A) : Prop :=
  forall w, proj (snd (m w)) = proj w.

(** The provider gave no price. *)
Definition is_failure (h : history) : bool :=
  match h with Close0 _ => false | EmptyHist | Failure _ => true end.

(** The cell is text. *)
Definition is_text (c : cell) : bool :=
  match c with CStr _ => true | CNum _ => false end.

(** The holdings of ticker [k], in the order of the rows. *)
Definition lots (k : cell) (hs : list HoldingRecord) : list HoldingRecord :=
  filter (fun h => ticker h = k) hs.

(** The values gathered so far for the key [k]. *)
Fixpoint group_get (k : cell) (gs : list (cell * Series)) : Series :=
  match gs with
  | [] => []
  | (k0, vs) :: rest => if bool_decide (k = k0) then vs else group_get k rest
  end.

(** The key of [a] comes strictly before the key of [b]. *)
Definition key_before (a b : cell * Series) : Prop :=
  cell_ltb (fst a) (fst b) = true.

(** In a chart, [a] may stand before [b]: [b] is not strictly larger. *)
Definition not_after (a b : cell * float) : Prop :=
  strictly_before (snd b) (snd a) = false.

(** * Properties *)

(** ** The computation monad *)

Lemma bind_run {A B : Type} (m : M A) (f : A -> M B) (w : world) :
  (m ≫= f) w =
  match m w with
  | (Ok a, w') => f a w'
  | (Raise e, w') => (Raise e, w')
  end.
Proof. reflexivity. Qed.

Lemma upd_upd (r : ref) (df1 df2 : DataFrame) (w : world) :
  upd r df2 (upd r df1 w) = upd r df2 w.
Proof.
  unfold upd, set_heap. simpl. f_equal. apply list_insert_insert_eq.
Qed.

Lemma upd_same (r : ref) (df : DataFrame) (w : world) :
  heap w !! r = Some df -> upd r df w = w.
Proof.
  intros H. destruct w as [h f c q m]. unfold upd, set_heap. simpl in *.
  f_equal. apply list_insert_id. exact H.
Qed.

Lemma heap_upd (r : ref) (df : DataFrame) (w : world) :
  r < length (heap w) -> heap (upd r df w) !! r = Some df.
Proof. intros H. simpl. apply list_lookup_insert_eq. exact H. Qed.

Lemma df_get_run (r : ref) (label : string) (w : world) :
  df_get r label w = (getitem (default ([] : DataFrame) (heap w !! r)) label, w).
Proof. reflexivity. Qed.

Lemma df_get_upd (r : ref) (label : string) (df : DataFrame) (w : world) :
  r < length (heap w) ->
  df_get r label (upd r df w) = (getitem df label, upd r df w).
Proof.
  intros H. unfold df_get. rewrite bind_run. unfold deref.
  rewrite heap_upd by exact H. reflexivity.
Qed.

Lemma df_set_upd (r : ref) (label : string) (s : Series) (df : DataFrame) (w : world) :
  r < length (heap w) ->
  df_set r label s (upd r df w) = (Ok tt, upd r (setitem df label s) w).
Proof.
  intros H. unfold df_set. f_equal.
  unfold upd, set_heap. simpl. f_equal.
  apply list_eq. intros i.
  destruct (decide (r = i)) as [<-|Hne].
  - rewrite list_lookup_alter_eq.
    rewrite !list_lookup_insert_eq by exact H. reflexivity.
  - rewrite list_lookup_alter_ne by exact Hne.
    rewrite !list_lookup_insert_ne by exact Hne. reflexivity.
Qed.

(** ** Columns of a DataFrame *)

Lemma getitem_setitem_eq (df : DataFrame) (l : string) (s : Series) :
  getitem (setitem df l s) l = Ok s.
Proof.
  induction df as [|[l' old] rest IH]; simpl.
  - rewrite String.eqb_refl. reflexivity.
  - destruct (String.eqb l' l) eqn:E; simpl; rewrite E; [reflexivity | exact IH].
Qed.

Lemma getitem_setitem_ne (df : DataFrame) (l l' : string) (s : Series) :
  l <> l' -> getitem (setitem df l s) l' = getitem df l'.
Proof.
  intros Hne. induction df as [|[k old] rest IH]; simpl.
  - apply String.eqb_neq in Hne. rewrite Hne. reflexivity.
  - destruct (String.eqb k l) eqn:E; simpl.
    + apply String.eqb_eq in E. subst k.
      apply String.eqb_neq in Hne. rewrite Hne. reflexivity.
    + destruct (String.eqb k l'); [reflexivity | exact IH].
Qed.

Lemma setitem_id (df : DataFrame) (l : string) (s : Series) :
  getitem df l = Ok s -> setitem df l s = df.
Proof.
  induction df as [|[k old] rest IH]; simpl; [discriminate |].
  destruct (String.eqb k l) eqn:E; intros H.
  - congruence.
  - rewrite IH by exact H. reflexivity.
Qed.

Lemma getitem_columns (df : DataFrame) (l : string) (s : Series) :
  getitem df l = Ok s -> l ∈ columns df.
Proof.
  induction df as [|[k old] rest IH]; simpl; [discriminate |].
  destruct (String.eqb k l) eqn:E; intros H.
  - apply String.eqb_eq in E. subst k. apply list_elem_of_here.
  - apply list_elem_of_further, IH, H.
Qed.

Lemma getitem_missing (df : DataFrame) (l : string) :
  l ∉ columns df -> getitem df l = Raise (KeyError l).
Proof.
  induction df as [|[k old] rest IH]; simpl; [reflexivity |].
  intros Hn. destruct (String.eqb k l) eqn:E.
  - apply String.eqb_eq in E. subst k. exfalso. apply Hn, list_elem_of_here.
  - apply IH. intros Hin. apply Hn, list_elem_of_further, Hin.
Qed.

Lemma add_label_here (cs : list string) (l : string) :
  add_label (l :: cs) l = l :: cs.
Proof.
  unfold add_label. case_bool_decide as H; [reflexivity |].
  exfalso. apply H, list_elem_of_here.
Qed.

Lemma add_label_further (cs : list string) (k l : string) :
  k <> l -> add_label (k :: cs) l = k :: add_label cs l.
Proof.
  intros Hne. unfold add_label.
  destruct (decide (l ∈ cs)) as [Hin | Hout].
  - rewrite !bool_decide_eq_true_2; [reflexivity | exact Hin |].
    apply list_elem_of_further, Hin.
  - rewrite !bool_decide_eq_false_2; [reflexivity | exact Hout |].
    intros H. apply elem_of_cons in H. destruct H; congruence.
Qed.

Lemma columns_setitem (df : DataFrame) (l : string) (s : Series) :
  columns (setitem df l s) = add_label (columns df) l.
Proof.
  induction df as [|[k old] rest IH].
  - reflexivity.
  - cbn [setitem]. destruct (String.eqb k l) eqn:E.
    + apply String.eqb_eq in E. subst k. cbn [columns map fst].
      symmetry. apply add_label_here.
    + apply String.eqb_neq in E. cbn [columns map fst].
      fold (columns (setitem rest l s)). fold (columns rest).
      rewrite IH. symmetry. apply add_label_further. exact E.
Qed.

Lemma Series_op_columns {A : Type} (op : float -> float -> float)
    (f g : A -> float) (rows : list A) :
  Series_op op (num_column f rows) (num_column g rows) =
  Ok (num_column (fun a => op (f a) (g a)) rows).
Proof.
  unfold num_column. induction rows as [|a rows IH]; [reflexivity |].
  cbn [map Series_op cell_op]. rewrite IH. reflexivity.
Qed.

Lemma Series_scale_column {A : Type} (f : A -> float) (k : float) (rows : list A) :
  Series_scale (num_column f rows) k = Ok (num_column (fun a => F64.mul (f a) k) rows).
Proof.
  unfold num_column. induction rows as [|a rows IH]; [reflexivity |].
  cbn [map Series_scale cell_op]. rewrite IH. reflexivity.
Qed.

Lemma Series_fillna_column {A : Type} (f : A -> float) (rows : list A) :
  Series_fillna (num_column f rows) F64.zero = num_column (fun a => fillna0 (f a)) rows.
Proof.
  unfold Series_fillna, num_column. rewrite map_map. apply map_ext.
  intros a. unfold fillna_cell, fillna0. destruct (F64.is_nan (f a)); reflexivity.
Qed.

Lemma Series_map_column (live_prices : gmap cell float) (hs : list HoldingRecord) :
  Series_map (map ticker hs) live_prices = num_column (current_price live_prices) hs.
Proof. unfold Series_map, num_column. rewrite map_map. reflexivity. Qed.

Lemma as_floats_column {A : Type} (f : A -> float) (rows : list A) :
  as_floats (num_column f rows) = Some (map f rows).
Proof.
  unfold num_column. induction rows as [|a rows IH]; [reflexivity |].
  cbn [map as_floats]. rewrite IH. reflexivity.
Qed.

Lemma Series_sum_column {A : Type} (f : A -> float) (rows : list A) :
  Series_sum (num_column f rows) =
  Ok (CNum (np_sum (map (fun a => fillna0 (f a)) rows))).
Proof. unfold Series_sum. rewrite as_floats_column, map_map. reflexivity. Qed.



(** ** Lines 77 to 87, row by row *)

Lemma has_holdings_with_metrics (df : DataFrame) (p : gmap cell float)
    (hs hs' : list HoldingRecord) :
  has_holdings df hs -> has_holdings (with_metrics df p hs') hs.
Proof.
  intros (Ht & Hq & Hp). unfold has_holdings, with_metrics.
  rewrite !getitem_setitem_ne by discriminate. auto.
Qed.

Lemma derive_columns_rows (r : ref) (p : gmap cell float) (w : world)
    (df : DataFrame) (hs : list HoldingRecord) :
  heap w !! r = Some df ->
  has_holdings df hs ->
  derive_columns r p w = (Ok tt, upd r (with_metrics df p hs) w).
Proof.
  intros Hr (Ht & Hq & Hp).
  assert (Hlt : r < length (heap w)) by (eapply lookup_lt_Some; exact Hr).
  rewrite <- (upd_same r df w Hr) at 1.
  unfold derive_columns.
  repeat first
    [ rewrite bind_run
    | rewrite df_get_upd by exact Hlt
    | rewrite df_set_upd by exact Hlt
    | rewrite getitem_setitem_eq
    | rewrite getitem_setitem_ne by discriminate
    | rewrite Ht | rewrite Hq | rewrite Hp
    | rewrite Series_map_column
    | progress unfold lift, Series_mul, Series_sub, Series_div
    | rewrite Series_op_columns
    | rewrite Series_scale_column
    | rewrite Series_fillna_column
    | progress cbv beta iota ].
  unfold with_metrics. f_equal. f_equal.
  set (X := setitem _ "ProfitLoss" _).
  clearbody X. clear.
  induction X as [|[k old] rest IH]; simpl; [reflexivity |].
  destruct (String.eqb k "PercentageReturn") eqn:E; simpl; rewrite E; [reflexivity |].
  f_equal. exact IH.
Qed.

(** ** Quote resolution *)

Lemma logged_nil (w : world) : logged [] [] w = w.
Proof. destruct w. unfold logged. simpl. rewrite !app_nil_r. reflexivity. Qed.

Lemma logged_logged (l1 l2 : list message) (q1 q2 : list cell) (w : world) :
  logged l2 q2 (logged l1 q1 w) = logged (l1 ++ l2) (q1 ++ q2) w.
Proof. unfold logged. simpl. rewrite !app_assoc. reflexivity. Qed.

Lemma print_run (msg : message) (w : world) :
  print msg w = (Ok tt, logged [msg] [] w).
Proof. unfold print, logged, set_console. rewrite app_nil_r. reflexivity. Qed.

Lemma yf_history_run (t : cell) (w : world) :
  yf_history t w = (Ok (market w t), logged [] [t] w).
Proof. unfold yf_history, logged, set_requests. rewrite app_nil_r. reflexivity. Qed.

Lemma fetch_prices_run (tickers : list cell) (prices : gmap cell float) (w : world) :
  fetch_prices tickers prices w =
  (Ok (quotes (market w) tickers prices), logged (notices (market w) tickers) tickers w).
Proof.
  revert prices w. induction tickers as [|t rest IH]; intros prices w.
  - simpl. rewrite logged_nil. reflexivity.
  - cbn [fetch_prices]. rewrite bind_run, yf_history_run.
    destruct (market w t) eqn:E.
    + rewrite IH, logged_logged. cbn [market logged quotes foldl notices flat_map].
      rewrite E. reflexivity.
    + rewrite bind_run, print_run, IH, !logged_logged.
      cbn [market logged quotes foldl notices flat_map]. rewrite E. reflexivity.
    + rewrite bind_run, print_run, IH, !logged_logged.
      cbn [market logged quotes foldl notices flat_map]. rewrite E. reflexivity.
Qed.

Lemma get_live_prices_run (tickers : list cell) (w : world) :
  get_live_prices tickers w =
  (Ok (quotes (market w) tickers ∅),
   logged ([Lit "Fetching live market data..."] :: notices (market w) tickers) tickers w).
Proof.
  unfold get_live_prices. rewrite bind_run, print_run, fetch_prices_run, logged_logged.
  reflexivity.
Qed.

Lemma quotes_lookup (mkt : cell -> history) (tickers : list cell)
    (prices : gmap cell float) (t : cell) :
  quotes mkt tickers prices !! t =
  if bool_decide (t ∈ tickers) then Some (price_of (mkt t)) else prices !! t.
Proof.
  revert prices. induction tickers as [|k rest IH]; intros prices.
  - reflexivity.
  - cbn [quotes foldl]. fold (quotes mkt rest (<[k := price_of (mkt k)]> prices)).
    rewrite IH. destruct (decide (t ∈ rest)) as [Hin | Hout].
    + rewrite !bool_decide_eq_true_2; [reflexivity | | exact Hin].
      apply list_elem_of_further, Hin.
    + rewrite (bool_decide_eq_false_2 _ Hout).
      destruct (decide (k = t)) as [-> | Hne].
      * rewrite lookup_insert_eq.
        rewrite bool_decide_eq_true_2; [reflexivity | apply list_elem_of_here].
      * rewrite lookup_insert_ne by exact Hne.
        rewrite bool_decide_eq_false_2; [reflexivity |].
        intros H. apply elem_of_cons in H. destruct H; congruence.
Qed.

Lemma elem_of_unique_acc (seen : list cell) (s : Series) (c : cell) :
  c ∈ unique_acc seen s <-> c ∈ s /\ c ∉ seen.
Proof.
  revert seen. induction s as [|x s IH]; intros seen; cbn [unique_acc].
  - split; [intros H; apply elem_of_nil in H; destruct H |].
    intros [H _]. apply elem_of_nil in H. destruct H.
  - case_bool_decide as Hx.
    + rewrite IH, elem_of_cons. split.
      * intros [H1 H2]. auto.
      * intros [[-> | H1] H2]; [contradiction | auto].
    + rewrite !elem_of_cons, IH, not_elem_of_cons. split.
      * intros [-> | (H1 & H2 & H3)]; auto.
      * intros [[-> | H1] H2]; [auto |].
        destruct (decide (c = x)) as [-> | Hne]; auto.
Qed.

Lemma elem_of_Series_unique (s : Series) (c : cell) :
  c ∈ Series_unique s <-> c ∈ s.
Proof.
  unfold Series_unique. rewrite elem_of_unique_acc. split; [tauto |].
  intros H. split; [exact H | apply not_elem_of_nil].
Qed.

Lemma live_quotes_lookup (mkt : cell -> history) (hs : list HoldingRecord)
    (h : HoldingRecord) :
  h ∈ hs -> live_quotes mkt hs !! ticker h = Some (price_of (mkt (ticker h))).
Proof.
  intros Hin. unfold live_quotes. rewrite quotes_lookup.
  rewrite bool_decide_eq_true_2; [reflexivity |].
  apply elem_of_Series_unique, list_elem_of_fmap. exists h. auto.
Qed.

(** ** [calculate_performance] in closed form *)

Lemma calculate_performance_run (r : ref) (w : world) (df : DataFrame)
    (hs : list HoldingRecord) :
  heap w !! r = Some df ->
  has_holdings df hs ->
  calculate_performance r w =
  (Ok r, upd r (with_metrics df (live_quotes (market w) hs) hs)
             (logged (progress_lines (market w) hs) (Series_unique (map ticker hs)) w)).
Proof.
  intros Hr Hh. unfold calculate_performance.
  rewrite bind_run, print_run. cbv beta iota.
  rewrite bind_run, df_get_run. cbn [heap logged]. rewrite Hr. cbn [from_option id].
  destruct Hh as (Ht & Hq & Hp). rewrite Ht.
  rewrite bind_run, get_live_prices_run, logged_logged.
  rewrite bind_run.
  erewrite derive_columns_rows; [reflexivity | exact Hr | repeat split; assumption].
Qed.

(** C6: [get_live_prices] never raises; it asks the provider about every
    ticker of its input in turn and returns a dict whose keys are exactly
    those tickers. A ticker for which the provider has no data, or for which
    the request raised, is in the dict with price 0.0 and has its line on the
    console; a ticker with data has its first close. *)
Theorem C6_every_ticker_gets_a_price (tickers : list cell) (w : world) :
  exists (prices : gmap cell float) (w' : world),
    get_live_prices tickers w = (Ok prices, w') /\
    dom prices = list_to_set tickers /\
    requests w' = requests w ++ tickers /\
    (forall t, t ∈ tickers ->
       market w t = EmptyHist \/ (exists e, market w t = Failure e) ->
       prices !! t = Some F64.zero /\
       exists line, notice t (market w t) = [line] /\ line ∈ console w') /\
    (forall t p, t ∈ tickers -> market w t = Close0 p -> prices !! t = Some p).
Proof.
  eexists _, _. split; [apply get_live_prices_run |].
  split; [| split; [reflexivity | split]].
  - apply set_eq. intros t. rewrite elem_of_dom, elem_of_list_to_set, quotes_lookup.
    case_bool_decide as Hin.
    + split; [intros _; exact Hin | intros _; eexists; reflexivity].
    + rewrite lookup_empty. split; [intros [? H]; discriminate | contradiction].
  - intros t Hin Hfail. rewrite quotes_lookup, bool_decide_eq_true_2 by exact Hin.
    assert (Hn : forall line, notice t (market w t) = [line] -> line ∈ console
      (logged ([Lit "Fetching live market data..."] :: notices (market w) tickers)
              tickers w)).
    { intros line Hl. cbn [console logged]. apply elem_of_app. right.
      apply list_elem_of_further. unfold notices.
      apply list_elem_of_In, in_flat_map. exists t. split.
      - apply list_elem_of_In, Hin.
      - rewrite Hl. left. reflexivity. }
    destruct Hfail as [E | [e E]]; rewrite E in *; cbn [price_of notice];
      (split; [reflexivity | eexists; split; [reflexivity | apply Hn; reflexivity]]).
  - intros t p Hin E. rewrite quotes_lookup, bool_decide_eq_true_2 by exact Hin.
    rewrite E. reflexivity.
Qed.

Lemma C6_every_ticker_gets_a_price_witness :
  exists (prices : gmap cell float) (w' : world),
    get_live_prices [CStr "AAPL"; CStr "NOPE"] (loaded_world lots_table lots_market)
      = (Ok prices, w') /\
    prices !! CStr "NOPE" = Some F64.zero /\
    prices !! CStr "AAPL" = Some (F64.of_Z 170).
Proof.
  destruct (C6_every_ticker_gets_a_price [CStr "AAPL"; CStr "NOPE"]
              (loaded_world lots_table lots_market))
    as (prices & w' & Hrun & _ & _ & Hzero & Hclose).
  exists prices, w'. split; [exact Hrun | split].
  - apply (Hzero (CStr "NOPE")).
    + apply list_elem_of_further, list_elem_of_here.
    + left. reflexivity.
  - apply (Hclose (CStr "AAPL")).
    + apply list_elem_of_here.
    + reflexivity.
Defined.

(** ** Zero prices *)


Lemma compare_cont_refl (m : positive) : Pos.compare_cont Eq m m = Eq.
Proof. apply Pos.compare_cont_refl. Qed.

Lemma eqb_refl (x : float) : F64.is_nan x = false -> F64.eqb x x = true.
Proof.
  destruct x as [s | s | | s m e]; simpl; intros H; try discriminate.
  - reflexivity.
  - destruct s; reflexivity.
  - unfold F64.eqb, SFeqb, SFcompare.
    destruct s; rewrite Z.compare_refl, compare_cont_refl; reflexivity.
Qed.


(** ** The table after the calculation *)

Lemma with_metrics_columns (df : DataFrame) (p : gmap cell float) (hs : list HoldingRecord) :
  columns (with_metrics df p hs) = foldl add_label (columns df) derived_columns.
Proof. unfold with_metrics. rewrite !columns_setitem. reflexivity. Qed.

Lemma with_metrics_derived (df : DataFrame) (p : gmap cell float) (hs : list HoldingRecord) :
  getitem (with_metrics df p hs) "CurrentPrice" = Ok (num_column (current_price p) hs) /\
  getitem (with_metrics df p hs) "PurchaseValue" = Ok (num_column purchase_value hs) /\
  getitem (with_metrics df p hs) "CurrentValue" = Ok (num_column (current_value p) hs) /\
  getitem (with_metrics df p hs) "ProfitLoss" = Ok (num_column (profit_loss p) hs) /\
  getitem (with_metrics df p hs) "PercentageReturn" = Ok (num_column (percentage_return p) hs).
Proof.
  unfold with_metrics.
  repeat split;
    repeat (rewrite getitem_setitem_ne by discriminate);
    apply getitem_setitem_eq.
Qed.

Lemma with_metrics_other (df : DataFrame) (p : gmap cell float) (hs : list HoldingRecord)
    (l : string) :
  l ∉ derived_columns -> getitem (with_metrics df p hs) l = getitem df l.
Proof.
  intros Hl. unfold with_metrics.
  rewrite !getitem_setitem_ne; [reflexivity | | | | |];
    intros <-; apply Hl; unfold derived_columns;
    repeat first [apply list_elem_of_here | apply list_elem_of_further].
Qed.

Lemma with_metrics_again (df : DataFrame) (p : gmap cell float) (hs : list HoldingRecord) :
  with_metrics (with_metrics df p hs) p hs = with_metrics df p hs.
Proof.
  destruct (with_metrics_derived df p hs) as (H1 & H2 & H3 & H4 & H5).
  unfold with_metrics at 1.
  rewrite (setitem_id _ _ _ H1), (setitem_id _ _ _ H2), (setitem_id _ _ _ H3),
    (setitem_id _ _ _ H4), (setitem_id _ _ _ H5).
  reflexivity.
Qed.

Lemma derived_columns_present (cs : list string) :
  Forall (fun l => l ∈ foldl add_label cs derived_columns) derived_columns.
Proof.
  assert (Hadd : forall cs l, l ∈ add_label cs l).
  { intros cs' l. unfold add_label. case_bool_decide; [assumption |].
    apply elem_of_app. right. apply list_elem_of_here. }
  assert (Hkeep : forall cs k l, l ∈ cs -> l ∈ add_label cs k).
  { intros cs' k l H. unfold add_label. case_bool_decide; [assumption |].
    apply elem_of_app. left. exact H. }
  unfold derived_columns. cbn [foldl].
  repeat constructor; repeat first [apply Hadd | apply Hkeep].
Qed.

Lemma num_column_lookup {A : Type} (f : A -> float) (rows : list A) (i : nat) (a : A) :
  rows !! i = Some a -> num_column f rows !! i = Some (CNum (f a)).
Proof.
  revert i. induction rows as [|b rows IH]; intros [|i] H; try discriminate.
  - injection H as ->. reflexivity.
  - apply IH. exact H.
Qed.



(** C10: [calculate_performance] returns the reference it was given; the
    DataFrame behind it is the only object that changed, no DataFrame was
    created, and no file was touched. Afterwards the table has the five
    derived columns, each row computed from the holding of that row; every
    other column, the three input columns among them, reads as before. *)
Theorem C10_table_enriched_in_place (r : ref) (w : world) (df : DataFrame)
    (hs : list HoldingRecord) :
  heap w !! r = Some df ->
  has_holdings df hs ->
  exists (df' : DataFrame) (w' : world),
    calculate_performance r w = (Ok r, w') /\
    heap w' = <[r := df']> (heap w) /\
    length (heap w') = length (heap w) /\
    (forall r', r' <> r -> heap w' !! r' = heap w !! r') /\
    files w' = files w /\
    Forall (fun l => l ∈ columns df') derived_columns /\
    (forall l, l ∉ derived_columns -> getitem df' l = getitem df l) /\
    has_holdings df' hs /\
    let row := enrich (live_quotes (market w) hs) in
    getitem df' "CurrentPrice" = Ok (num_column (currentPrice ∘ row) hs) /\
    getitem df' "PurchaseValue" = Ok (num_column (purchaseValue ∘ row) hs) /\
    getitem df' "CurrentValue" = Ok (num_column (currentValue ∘ row) hs) /\
    getitem df' "ProfitLoss" = Ok (num_column (profitLoss ∘ row) hs) /\
    getitem df' "PercentageReturn" = Ok (num_column (percentageReturn ∘ row) hs).
Proof.
  intros Hr Hh.
  exists (with_metrics df (live_quotes (market w) hs) hs). eexists.
  split; [apply (calculate_performance_run r w df hs Hr Hh) |].
  cbn [heap upd set_heap logged files].
  split; [reflexivity |].
  split; [apply length_insert |].
  split; [intros r' Hne; apply list_lookup_insert_ne; congruence |].
  split; [reflexivity |].
  split; [rewrite with_metrics_columns; apply derived_columns_present |].
  split; [intros l; apply with_metrics_other |].
  split; [apply has_holdings_with_metrics, Hh |].
  apply with_metrics_derived.
Qed.

Lemma C10_table_enriched_in_place_witness :
  exists (df' : DataFrame) (w' : world),
    calculate_performance 0 (loaded_world lots_table lots_market) = (Ok 0, w') /\
    heap w' = [df'] /\
    getitem df' "Quantity" = Ok (nums [10; 5; 2]%Z).
Proof.
  pose (hs := [Holding (CStr "AAPL") (F64.of_Z 10) (F64.of_Z 150);
               Holding (CStr "AAPL") (F64.of_Z 5) (F64.of_Z 160);
               Holding (CStr "GOOG") (F64.of_Z 2) (F64.of_Z 2800)]).
  assert (Hr : heap (loaded_world lots_table lots_market) !! 0 = Some lots_table)
    by reflexivity.
  assert (Hh : has_holdings lots_table hs) by (repeat split; reflexivity).
  destruct (C10_table_enriched_in_place 0 (loaded_world lots_table lots_market)
              lots_table hs Hr Hh)
    as (df' & w' & Hrun & Hheap & _ & _ & _ & _ & Hkeep & _).
  exists df', w'. split; [exact Hrun | split; [exact Hheap |]].
  rewrite Hkeep; [reflexivity |].
  unfold derived_columns. intros H.
  repeat (apply elem_of_cons in H; destruct H as [H | H]; [discriminate |]).
  apply elem_of_nil in H. exact H.
Defined.

(** ** Running the calculation again *)

(** C3, against the specification as written: the calculation is not free
    of I/O. On the same holdings it prints to the console and asks the
    provider for every ticker, and what it computes follows the provider's
    answers: with AAPL at 170 and then at 171 the current values differ. *)
Lemma C3_calculation_prints_and_fetches :
  let w1 := loaded_world lots_table lots_market in
  let w2 := loaded_world lots_table later_market in
  heap w1 = heap w2 /\
  console (snd (calculate_performance 0 w1)) =
    [[Lit "Calculating portfolio performance..."]; [Lit "Fetching live market data..."]] /\
  console (snd (calculate_performance 0 w1)) <> console w1 /\
  requests (snd (calculate_performance 0 w1)) = [CStr "AAPL"; CStr "GOOG"] /\
  requests (snd (calculate_performance 0 w1)) <> requests w1 /\
  column_of (snd (calculate_performance 0 w1)) 0 "CurrentValue" = Ok (nums [1700; 850; 5400]%Z) /\
  column_of (snd (calculate_performance 0 w2)) 0 "CurrentValue" = Ok (nums [1710; 855; 5400]%Z) /\
  column_of (snd (calculate_performance 0 w1)) 0 "CurrentValue" <>
    column_of (snd (calculate_performance 0 w2)) 0 "CurrentValue".
Proof. vm_compute. repeat split; try reflexivity; discriminate. Qed.

(** C3, as the code has it: the table [calculate_performance] leaves behind
    is determined by the holdings and the quotes. Two runs on the same
    holdings for which the provider gives the same quotes end with the same
    table, whatever else differs in the world; and a second run on the table
    the first run enriched, the provider answering as before, leaves that
    table as it is. The calculation itself prints its progress and fetches
    the quotes. *)
Theorem C3_same_quotes_same_table (r : ref) (w1 w2 : world) (df : DataFrame)
    (hs : list HoldingRecord) :
  heap w1 !! r = Some df ->
  heap w2 !! r = Some df ->
  has_holdings df hs ->
  live_quotes (market w1) hs = live_quotes (market w2) hs ->
  let run1 := calculate_performance r w1 in
  let run2 := calculate_performance r w2 in
  let again := calculate_performance r (snd run1) in
  fst run1 = Ok r /\ fst run2 = Ok r /\ fst again = Ok r /\
  heap (snd run1) !! r = Some (with_metrics df (live_quotes (market w1) hs) hs) /\
  heap (snd run2) !! r = heap (snd run1) !! r /\
  heap (snd again) !! r = heap (snd run1) !! r /\
  console (snd run1) = console w1 ++ progress_lines (market w1) hs /\
  requests (snd run1) = requests w1 ++ Series_unique (map ticker hs).
Proof.
  intros H1 H2 Hh Hq run1 run2 again.
  assert (L1 : r < length (heap w1)) by (eapply lookup_lt_Some; exact H1).
  assert (L2 : r < length (heap w2)) by (eapply lookup_lt_Some; exact H2).
  assert (E1 : run1 = _) by apply (calculate_performance_run r w1 df hs H1 Hh).
  assert (E2 : run2 = _) by apply (calculate_performance_run r w2 df hs H2 Hh).
  assert (R1 : heap (snd run1) !! r = Some (with_metrics df (live_quotes (market w1) hs) hs)).
  { rewrite E1. apply heap_upd. exact L1. }
  assert (M1 : market (snd run1) = market w1) by (rewrite E1; reflexivity).
  pose proof (calculate_performance_run r (snd run1) _ hs R1
                (has_holdings_with_metrics _ _ _ _ Hh)) as E3.
  fold again in E3. rewrite M1, with_metrics_again in E3.
  assert (L3 : r < length (heap (snd run1))) by (eapply lookup_lt_Some; exact R1).
  rewrite R1, E3, E2. cbn [fst snd].
  split; [rewrite E1; reflexivity |].
  split; [reflexivity |]. split; [reflexivity |]. split; [reflexivity |].
  split; [rewrite <- Hq; apply heap_upd; exact L2 |].
  split; [apply heap_upd; exact L3 |].
  rewrite E1. split; reflexivity.
Qed.

Lemma C3_same_quotes_same_table_witness :
  fst (calculate_performance 0
         (snd (calculate_performance 0 (loaded_world lots_table lots_market)))) = Ok 0 /\
  heap (snd (calculate_performance 0
         (snd (calculate_performance 0 (loaded_world lots_table lots_market))))) !! 0 =
  heap (snd (calculate_performance 0 (loaded_world lots_table lots_market))) !! 0.
Proof.
  pose (hs := [Holding (CStr "AAPL") (F64.of_Z 10) (F64.of_Z 150);
               Holding (CStr "AAPL") (F64.of_Z 5) (F64.of_Z 160);
               Holding (CStr "GOOG") (F64.of_Z 2) (F64.of_Z 2800)]).
  assert (Hr : heap (loaded_world lots_table lots_market) !! 0 = Some lots_table)
    by reflexivity.
  assert (Hh : has_holdings lots_table hs) by (repeat split; reflexivity).
  destruct (C3_same_quotes_same_table 0 (loaded_world lots_table lots_market)
              (loaded_world lots_table lots_market) lots_table hs Hr Hr Hh eq_refl)
    as (_ & _ & Hok & _ & _ & Hsame & _).
  split; [exact Hok | exact Hsame].
Defined.

(** ** Percentage return of a holding *)

Lemma percentage_return_not_nan (p : gmap cell float) (h : HoldingRecord) :
  F64.is_nan (percentage_return p h) = false.
Proof.
  unfold percentage_return, fillna0.
  set (x := F64.mul _ F64.hundred).
  destruct (F64.is_nan x) eqn:E; [reflexivity | exact E].
Qed.

Lemma percentage_return_zero_cost (p : gmap cell float) (h : HoldingRecord) :
  F64.is_zero (purchase_value h) = true ->
  percentage_return p h =
    match profit_loss p h with
    | S754_zero _ | S754_nan => F64.zero
    | S754_infinity s | S754_finite s _ _ =>
        match purchase_value h with
        | S754_zero s' => S754_infinity (xorb s s')
        | _ => F64.zero
        end
    end.
Proof.
  unfold percentage_return. intros Hz.
  destruct (purchase_value h) as [s' | | |]; try discriminate.
  destruct (profit_loss p h) as [s | s | | s m e]; try reflexivity;
    destruct s, s'; reflexivity.
Qed.

(** C1: ten shares bought at price 0 and quoted at 5 have purchase value 0
    and profit 50; their percentage return comes out as +infinity, where the
    specification, and the comments on lines 85 and 87, want 0. [fillna]
    replaces the NaN of 0/0 only. *)
Theorem C1_free_shares_return_is_infinite :
  let run := calculate_performance 0 (loaded_world gift_table gift_market) in
  fst run = Ok 0 /\
  column_of (snd run) 0 "PurchaseValue" = Ok [CNum F64.zero] /\
  column_of (snd run) 0 "ProfitLoss" = Ok (nums [50]%Z) /\
  column_of (snd run) 0 "PercentageReturn" = Ok [CNum F64.inf] /\
  column_of (snd run) 0 "PercentageReturn" <> Ok [CNum F64.zero].
Proof. vm_compute. repeat split; try reflexivity; discriminate. Qed.

(** ** numpy's sum *)

Lemma pairwise_sum_fuel_enough (f1 f2 : nat) (a : list float) :
  length a <= f1 -> length a <= f2 ->
  pairwise_sum_fuel f1 a = pairwise_sum_fuel f2 a.
Proof.
  revert f2 a. induction f1 as [|f1 IH]; intros f2 a H1 H2.
  - destruct a; [| cbn [length] in H1; lia].
    destruct f2; reflexivity.
  - cbn [pairwise_sum_fuel]. destruct (Nat.ltb 128 (length a)) eqn:E.
    + apply Nat.ltb_lt in E. destruct f2 as [|f2]; [lia |].
      cbn [pairwise_sum_fuel].
      apply Nat.ltb_lt in E as E'. rewrite E'. cbv zeta.
      assert (Hdiv : 2 * (length a / 2) <= length a)
        by (apply Nat.Div0.mul_div_le).
      assert (Hmod : (length a / 2) mod 8 < 8)
        by (apply Nat.mod_upper_bound; discriminate).
      assert (Hhalf : 64 <= length a / 2)
        by (apply Nat.div_le_lower_bound; lia).
      f_equal; apply IH; rewrite ?length_take, ?length_drop; lia.
    + destruct f2 as [|f2]; cbn [pairwise_sum_fuel]; [| rewrite E]; reflexivity.
Qed.

(** More than 128 values: the array is cut in two and the sums of the parts
    are added, each part summed in the same way. *)
Lemma pairwise_sum_split (a : list float) :
  128 < length a ->
  pairwise_sum a =
  F64.add (pairwise_sum (take (length a / 2 - (length a / 2) mod 8) a))
          (pairwise_sum (drop (length a / 2 - (length a / 2) mod 8) a)).
Proof.
  intros H. unfold pairwise_sum at 1.
  destruct (length a) as [|n] eqn:En; [lia |].
  cbn [pairwise_sum_fuel]. rewrite En.
  apply Nat.ltb_lt in H as H'. rewrite H'. cbv zeta.
  assert (Hdiv : 2 * (S n / 2) <= S n) by (apply Nat.Div0.mul_div_le).
  assert (Hmod : (S n / 2) mod 8 < 8) by (apply Nat.mod_upper_bound; discriminate).
  assert (Hhalf : 64 <= S n / 2) by (apply Nat.div_le_lower_bound; lia).
  unfold pairwise_sum.
  f_equal; apply pairwise_sum_fuel_enough; rewrite ?length_take, ?length_drop; lia.
Qed.








(** Ten holdings worth 0.1 each: numpy's sum is 1.0, the sum taken first to
    last is 0.9999999999999999. *)
Lemma ten_tenths :
  let tenth := F64.div (F64.of_Z 1) (F64.of_Z 10) in
  np_sum (repeat tenth 10) = F64.of_Z 1 /\
  F64.cmp_ratio (fsum (repeat tenth 10)) 1 1 = Some Lt.
Proof. vm_compute. split; reflexivity. Qed.

(** ** Totals *)

Lemma with_metrics_has_metrics (df : DataFrame) (p : gmap cell float)
    (hs : list HoldingRecord) :
  has_metrics (with_metrics df p hs) (map (enrich p) hs).
Proof.
  destruct (with_metrics_derived df p hs) as (_ & H2 & H3 & H4 & _).
  unfold has_metrics, num_column. rewrite !map_map. cbn [enrich purchaseValue
    currentValue profitLoss]. auto.
Qed.

Lemma compute_totals_run (r : ref) (w : world) (df : DataFrame)
    (es : list EnrichedHolding) :
  heap w !! r = Some df ->
  has_metrics df es ->
  compute_totals r w = (Ok (totals_of es), w).
Proof.
  intros Hr (Hv & Hc & Hp). unfold compute_totals.
  repeat first
    [ rewrite bind_run
    | rewrite df_get_run
    | rewrite Hr
    | rewrite Hv | rewrite Hc | rewrite Hp
    | progress unfold lift
    | rewrite Series_sum_column
    | progress cbn [from_option id is_positive percent_of]
    | progress cbv beta iota ].
  unfold totals_of. cbv zeta.
  destruct (F64.ltb F64.zero _); reflexivity.
Qed.




(** ** The worked example *)

(** C8: for the lots AAPL 10 at 150, AAPL 5 at 160 and GOOG 2 at 2800,
    quoted at 170 and 2700, the rows have purchase values 1500, 800, 5600,
    current values 1700, 850, 5400 and profits 200, 50, -200; the totals are
    7900, 7950 and 50, with a percentage return between 0.625 and 0.635,
    printed as 0.63; the chart has GOOG with 5400 first and AAPL with 2550
    second. *)
Theorem C8_worked_example :
  let run := calculate_performance 0 (loaded_world lots_table lots_market) in
  let w := snd run in
  fst run = Ok 0 /\
  column_of w 0 "CurrentPrice" = Ok (nums [170; 170; 2700]%Z) /\
  column_of w 0 "PurchaseValue" = Ok (nums [1500; 800; 5600]%Z) /\
  column_of w 0 "CurrentValue" = Ok (nums [1700; 850; 5400]%Z) /\
  column_of w 0 "ProfitLoss" = Ok (nums [200; 50; -200]%Z) /\
  fst (compute_totals 0 w) =
    Ok (Totals (CNum (F64.of_Z 7900)) (CNum (F64.of_Z 7950)) (CNum (F64.of_Z 50))
               (F64.mul (F64.div (F64.of_Z 50) (F64.of_Z 7900)) F64.hundred)) /\
  F64.cmp_ratio (F64.mul (F64.div (F64.of_Z 50) (F64.of_Z 7900)) F64.hundred) 625 1000
    = Some Gt /\
  F64.cmp_ratio (F64.mul (F64.div (F64.of_Z 50) (F64.of_Z 7900)) F64.hundred) 635 1000
    = Some Lt /\
  fst (chart_data 0 w) = Ok [(CStr "GOOG", F64.of_Z 5400); (CStr "AAPL", F64.of_Z 2550)] /\
  fst (main (fresh_world lots_table lots_market)) = Ok tt /\
  (exists shade,
     files (snd (main (fresh_world lots_table lots_market))) !! CHART_PNG_PATH =
       Some (Png [Bar (CStr "GOOG") (F64.of_Z 5400) (F64.of_Z 1);
                  Bar (CStr "AAPL") (F64.of_Z 2550) shade])).
Proof.
  cbv zeta. repeat split; try (vm_compute; reflexivity).
  eexists. vm_compute. reflexivity.
Qed.

(** ** Loading the portfolio *)

Lemma missing_column_fails_check (df : DataFrame) (col : string) :
  col ∈ required_columns -> col ∉ columns df ->
  forallb (fun c => bool_decide (c ∈ columns df)) required_columns = false.
Proof.
  intros Hin Hout.
  destruct (forallb _ required_columns) eqn:E; [| reflexivity].
  rewrite forallb_forall in E. apply list_elem_of_In in Hin.
  specialize (E col Hin). apply bool_decide_eq_true_1 in E. contradiction.
Qed.

Lemma has_holdings_passes_check (df : DataFrame) (hs : list HoldingRecord) :
  has_holdings df hs ->
  forallb (fun c => bool_decide (c ∈ columns df)) required_columns = true.
Proof.
  intros (Ht & Hq & Hp). cbn [forallb required_columns].
  rewrite !bool_decide_eq_true_2; [reflexivity | | |];
    eapply getitem_columns; eassumption.
Qed.

(** One step of a computation at a time. *)
Ltac run_steps :=
  repeat (first [ rewrite bind_run | rewrite print_run | rewrite df_get_run ];
          cbv beta iota).

Lemma load_portfolio_missing (path : string) (w : world) :
  files w !! path = None ->
  load_portfolio path w =
  (Ok None,
   logged [[Lit "Error: Portfolio file not found at '"; Lit path; Lit "'"];
           [Lit "Please create it with columns: Ticker, Quantity, PurchasePrice"]] [] w).
Proof.
  intros H. unfold load_portfolio, path_exists. rewrite bind_run, H.
  rewrite bool_decide_eq_false_2 by (intros [? ?]; discriminate).
  cbn [negb]. run_steps. rewrite logged_logged. reflexivity.
Qed.

Lemma load_portfolio_read (path : string) (w : world) (df : DataFrame) :
  files w !! path = Some (Csv df) ->
  load_portfolio path w =
  if forallb (fun c => bool_decide (c ∈ columns df)) required_columns
  then (Ok (Some (length (heap w))),
        logged [[Lit "Loading portfolio from '"; Lit path; Lit "'..."]] []
               (set_heap (heap w ++ [df]) w))
  else (Ok None,
        logged [[Lit "Loading portfolio from '"; Lit path; Lit "'..."];
                [Lit "Error: The CSV file must contain the columns: ";
                 Lit "Ticker, Quantity, PurchasePrice"]] []
               (set_heap (heap w ++ [df]) w)).
Proof.
  intros H. unfold load_portfolio, path_exists. rewrite bind_run, H.
  rewrite bool_decide_eq_true_2 by (eexists; reflexivity).
  cbn [negb]. run_steps.
  unfold read_csv. cbn [files logged]. rewrite H. cbv beta iota.
  rewrite bind_run. unfold deref. cbn [heap set_heap logged].
  rewrite lookup_app_r by lia.
  replace (length (heap w) - length (heap w)) with 0 by lia.
  cbn [lookup list_lookup from_option id].
  destruct (forallb _ required_columns); cbn [negb].
  - reflexivity.
  - run_steps. unfold logged, set_heap, mret, M_ret. cbn.
    rewrite <- !app_assoc. reflexivity.
Qed.

(** C5: when the portfolio file does not exist, or exists and lacks one of
    the columns Ticker, Quantity, PurchasePrice, [main] prints its
    diagnostic and the line that the run failed, and returns; the files are
    exactly what they were, so neither the report nor the chart was created
    or overwritten, and the provider was never asked. *)
Theorem C5_failed_load_writes_nothing (w : world) :
  files w !! PORTFOLIO_CSV_PATH = None \/
  (exists df col, files w !! PORTFOLIO_CSV_PATH = Some (Csv df) /\
                  col ∈ required_columns /\ col ∉ columns df) ->
  fst (main w) = Ok tt /\
  files (snd (main w)) = files w /\
  requests (snd (main w)) = requests w /\
  exists diagnostic : list message,
    (diagnostic =
       [[Lit "Error: Portfolio file not found at '"; Lit PORTFOLIO_CSV_PATH; Lit "'"];
        [Lit "Please create it with columns: Ticker, Quantity, PurchasePrice"]] \/
     diagnostic =
       [[Lit "Loading portfolio from '"; Lit PORTFOLIO_CSV_PATH; Lit "'..."];
        [Lit "Error: The CSV file must contain the columns: ";
         Lit "Ticker, Quantity, PurchasePrice"]]) /\
    console (snd (main w)) =
      console w ++ [[Lit "--- Starting Portfolio Performance Tracker ---"]]
                ++ diagnostic ++ [[Lit "--- Script execution failed. ---"]].
Proof.
  intros [Hnone | (df & col & Hfile & Hin & Hout)]; unfold main; run_steps.
  - rewrite load_portfolio_missing by exact Hnone. cbv beta iota. run_steps.
    cbn [fst snd files requests console logged].
    rewrite !app_nil_r, <- !app_assoc.
    repeat split. eexists. split; [left; reflexivity | reflexivity].
  - rewrite (load_portfolio_read _ _ df) by exact Hfile.
    rewrite (missing_column_fails_check df col Hin Hout). cbv beta iota. run_steps.
    cbn [fst snd files requests console logged set_heap].
    rewrite !app_nil_r, <- !app_assoc.
    repeat split. eexists. split; [right; reflexivity | reflexivity].
Qed.

Lemma C5_failed_load_writes_nothing_witness :
  files (snd (main (fresh_world short_table lots_market))) =
    files (fresh_world short_table lots_market) /\
  files (snd (main (World [] ∅ [] [] lots_market))) = ∅.
Proof.
  split.
  - apply (C5_failed_load_writes_nothing (fresh_world short_table lots_market)).
    right. exists short_table, "Quantity". split; [reflexivity | split].
    + apply list_elem_of_further, list_elem_of_here.
    + vm_compute. intros H.
      repeat (apply elem_of_cons in H; destruct H as [H | H]; [discriminate |]).
      apply elem_of_nil in H. exact H.
  - apply (C5_failed_load_writes_nothing (World [] ∅ [] [] lots_market)).
    left. reflexivity.
Defined.

(** ** The report and the chart *)

Lemma generate_summary_and_report_run (r : ref) (path : string) (w : world)
    (df : DataFrame) (es : list EnrichedHolding) :
  heap w !! r = Some df ->
  has_metrics df es ->
  exists value profit percentage : float,
    generate_summary_and_report r path w =
    (Ok tt, set_files (<[path := Csv df]> (files w))
                      (logged (summary_lines value profit percentage path) [] w)).
Proof.
  intros Hr Hm. unfold generate_summary_and_report.
  rewrite bind_run, (compute_totals_run r w df es Hr Hm). cbv beta iota.
  unfold totals_of. cbv zeta.
  cbn [total_current_value total_profit_loss total_percentage_return].
  eexists _, _, _.
  run_steps. unfold lift, fixed2. cbv beta iota.
  run_steps. cbv beta iota. run_steps. rewrite !logged_logged.
  unfold deref, write_file. cbn [heap logged]. rewrite Hr. reflexivity.
Qed.

Lemma generate_visualization_files (r : ref) (path q : string) (w : world) :
  q <> path ->
  files (snd (generate_visualization r path w)) !! q = files w !! q.
Proof.
  intros Hne. unfold generate_visualization, chart_data, lift, write_file.
  run_steps. cbn [heap logged].
  destruct (getitem _ "Ticker"); [| reflexivity]. run_steps. cbn [heap logged].
  destruct (getitem _ "CurrentValue"); [| reflexivity]. run_steps.
  destruct (groupby_sum _ _); [| reflexivity]. run_steps.
  unfold mret, M_ret. cbv beta iota. run_steps.
  destruct (ndarray_max _); [| reflexivity].
  cbn [snd files set_files logged]. apply lookup_insert_ne. congruence.
Qed.

Lemma bind_files {A B : Type} (m : M A) (k : A -> M B) (w : world) (q : string) :
  (forall a w', files (snd (k a w')) = files w') ->
  files (snd ((m ≫= k) w)) !! q = files (snd (m w)) !! q.
Proof.
  intros Hk. rewrite bind_run. destruct (m w) as [[a | e] w']; [| reflexivity].
  cbn [snd]. rewrite Hk. reflexivity.
Qed.

Lemma main_up_to_report (w : world) (df : DataFrame) (hs : list HoldingRecord) :
  files w !! PORTFOLIO_CSV_PATH = Some (Csv df) ->
  has_holdings df hs ->
  exists w3 : world,
    main w =
      (generate_visualization (length (heap w)) CHART_PNG_PATH ≫= fun _ =>
       print [Lit (String (ascii_of_nat 10) "--- Portfolio analysis complete. ---")] ≫= fun _ =>
       print [Lit "Report: '"; Lit REPORT_CSV_PATH; Lit "'"] ≫= fun _ =>
       print [Lit "Chart: '"; Lit CHART_PNG_PATH; Lit "'"]) w3 /\
    files w3 =
      <[REPORT_CSV_PATH := Csv (with_metrics df (live_quotes (market w) hs) hs)]> (files w) /\
    heap w3 = heap w ++ [with_metrics df (live_quotes (market w) hs) hs].
Proof.
  intros Hfile Hh. unfold main. run_steps.
  rewrite (load_portfolio_read _ _ df) by exact Hfile.
  rewrite (has_holdings_passes_check df hs Hh). cbv beta iota.
  rewrite bind_run.
  match goal with |- context [calculate_performance ?r ?w1] =>
    assert (Hr : heap w1 !! r = Some df)
      by (cbn [heap logged set_heap]; rewrite lookup_app_r by lia;
          replace (length (heap w) - length (heap w)) with 0 by lia; reflexivity);
    rewrite (calculate_performance_run r w1 df hs Hr Hh)
  end.
  cbv beta iota. rewrite bind_run.
  match goal with |- context [generate_summary_and_report ?r ?p ?w2] =>
    assert (Hr2 : heap w2 !! r = Some (with_metrics df (live_quotes (market w) hs) hs))
      by (apply heap_upd; cbn [heap logged set_heap]; rewrite length_app; cbn; lia);
    destruct (generate_summary_and_report_run r p w2 _ _ Hr2
                (with_metrics_has_metrics df _ hs)) as (value & profit & pct & Hrep);
    rewrite Hrep
  end.
  cbv beta iota. eexists. split; [reflexivity |].
  cbn [files heap set_files set_heap logged upd market]. split; [reflexivity |].
  rewrite insert_app_r_alt by lia.
  replace (length (heap w) - length (heap w)) with 0 by lia. reflexivity.
Qed.

(** C9, against the specification as written: a portfolio file with a
    fourth column gives a report of nine columns, the fourth column of the
    input among them. *)
Lemma C9_extra_column_is_reported :
  has_holdings noted_table [Holding (CStr "AAPL") (F64.of_Z 10) (F64.of_Z 150)] /\
  exists table : DataFrame,
    files (snd (main (fresh_world noted_table lots_market))) !! REPORT_CSV_PATH =
      Some (Csv table) /\
    columns table =
      ["Ticker"; "Quantity"; "PurchasePrice"; "Notes"; "CurrentPrice"; "PurchaseValue";
       "CurrentValue"; "ProfitLoss"; "PercentageReturn"] /\
    columns table <> report_columns.
Proof.
  split; [repeat split; reflexivity |].
  eexists. split; [vm_compute; reflexivity |].
  split; [reflexivity | discriminate].
Qed.

(** C9, as the code has it: for a portfolio file that holds holdings, the
    report is written to [REPORT_CSV_PATH] whatever was there before, and is
    the whole table: the columns of the input in their order, followed by
    those of CurrentPrice, PurchaseValue, CurrentValue, ProfitLoss,
    PercentageReturn that the input did not have, in this order. When the
    input has the columns Ticker, Quantity, PurchasePrice and no other, the
    report has exactly the eight columns in the stated order. *)
Theorem C9_report_is_the_whole_table (w : world) (df : DataFrame)
    (hs : list HoldingRecord) :
  files w !! PORTFOLIO_CSV_PATH = Some (Csv df) ->
  has_holdings df hs ->
  exists table : DataFrame,
    files (snd (main w)) !! REPORT_CSV_PATH = Some (Csv table) /\
    table = with_metrics df (live_quotes (market w) hs) hs /\
    columns table = foldl add_label (columns df) derived_columns /\
    (columns df = required_columns -> columns table = report_columns).
Proof.
  intros Hfile Hh.
  destruct (main_up_to_report w df hs Hfile Hh) as (w3 & Hmain & Hfiles & _).
  eexists. split; [| split; [reflexivity | split]].
  - rewrite Hmain.
    rewrite bind_files by (intros a w'; run_steps; reflexivity).
    rewrite generate_visualization_files by discriminate.
    rewrite Hfiles. apply lookup_insert_eq.
  - apply with_metrics_columns.
  - intros Hc. rewrite with_metrics_columns, Hc. reflexivity.
Qed.

Lemma C9_report_is_the_whole_table_witness :
  exists table : DataFrame,
    files (snd (main (fresh_world lots_table lots_market))) !! REPORT_CSV_PATH =
      Some (Csv table) /\
    columns table = report_columns.
Proof.
  pose (hs := [Holding (CStr "AAPL") (F64.of_Z 10) (F64.of_Z 150);
               Holding (CStr "AAPL") (F64.of_Z 5) (F64.of_Z 160);
               Holding (CStr "GOOG") (F64.of_Z 2) (F64.of_Z 2800)]).
  assert (Hf : files (fresh_world lots_table lots_market) !! PORTFOLIO_CSV_PATH =
               Some (Csv lots_table)) by (vm_compute; reflexivity).
  assert (Hh : has_holdings lots_table hs) by (repeat split; reflexivity).
  destruct (C9_report_is_the_whole_table (fresh_world lots_table lots_market)
              lots_table hs Hf Hh) as (table & Hrep & _ & _ & Hcols).
  exists table. split; [exact Hrep | apply Hcols; reflexivity].
Defined.

(** ** The chart of an empty or worthless portfolio *)

Lemma ndarray_max_empty (a : list float) :
  ndarray_max a = Raise ValueError <-> a = [].
Proof.
  destruct a; simpl; split; intros H; try reflexivity; discriminate.
Qed.

(** A chart whose values are all zero is drawn: 0/0 is NaN in numpy, not an
    error, and every bar gets NaN for its colour. *)
Lemma worthless_portfolio_chart_is_drawn :
  fst (main (fresh_world gift_table silent_market)) = Ok tt /\
  files (snd (main (fresh_world gift_table silent_market))) !! CHART_PNG_PATH =
    Some (Png [Bar (CStr "GIFT") F64.zero F64.nan]).
Proof. split; vm_compute; reflexivity. Qed.

(** C4: a portfolio file with no holdings. The totals are all 0 and the
    report is written with its eight columns and no row, but the chart is
    not: the maximum of no values raises [ValueError], the run ends there
    and no chart file exists. *)
Theorem C4_empty_portfolio_chart_raises :
  let run := main (fresh_world empty_table silent_market) in
  fst (compute_totals 0 (snd run)) =
    Ok (Totals (CNum F64.zero) (CNum F64.zero) (CNum F64.zero) F64.zero) /\
  files (snd run) !! REPORT_CSV_PATH =
    Some (Csv (map (fun l => (l, [])) report_columns)) /\
  fst (chart_data 0 (snd run)) = Ok [] /\
  fst (generate_visualization 0 CHART_PNG_PATH (snd run)) = Raise ValueError /\
  fst run = Raise ValueError /\
  files (snd run) !! CHART_PNG_PATH = None.
Proof. cbv zeta. repeat split; vm_compute; reflexivity. Qed.

(** * Further properties *)

(** ** What a computation leaves alone *)

Lemma preserves_ret {A X : Type} (proj : world -> X) (a : A) :
  preserves proj (mret a : M A).
Proof. intros w. reflexivity. Qed.

Lemma preserves_lift {A X : Type} (proj : world -> X) (o : outcome A) :
  preserves proj (lift o).
Proof. intros w. reflexivity. Qed.

Lemma preserves_bind {A B X : Type} (proj : world -> X) (m : M A) (k : A -> M B) :
  preserves proj m -> (forall a, preserves proj (k a)) -> preserves proj (m ≫= k).
Proof.
  intros Hm Hk w. rewrite bind_run. specialize (Hm w).
  destruct (m w) as [[a | e] w']; cbn [snd] in *.
  - rewrite Hk. exact Hm.
  - exact Hm.
Qed.

Lemma preserves_read_csv {X : Type} (proj : world -> X) (path : string) :
  (forall h w, proj (set_heap h w) = proj w) -> preserves proj (read_csv path).
Proof.
  intros H w. unfold read_csv. destruct (files w !! path) as [[table | bars] |];
    cbn [snd]; [apply H | reflexivity | reflexivity].
Qed.

Lemma preserves_write_other (path q : string) (f : file) :
  q <> path -> preserves (fun w => files w !! q) (write_file path f).
Proof.
  intros Hne w. unfold write_file. cbn [snd files set_files].
  apply lookup_insert_ne. congruence.
Qed.

Lemma preserves_df_set_other (r r' : ref) (label : string) (s : Series) :
  r' <> r -> preserves (fun w => heap w !! r') (df_set r label s).
Proof.
  intros Hne w. unfold df_set. cbn [snd heap set_heap].
  apply list_lookup_alter_ne. congruence.
Qed.

Lemma preserves_df_set_length (r : ref) (label : string) (s : Series) :
  preserves (fun w => length (heap w)) (df_set r label s).
Proof. intros w. unfold df_set. cbn [snd heap set_heap]. apply length_alter. Qed.

(** Splits a computation into its steps; what is left are the steps that
    touch the part of the world in question. *)
Ltac frame :=
  repeat first
    [ apply preserves_bind; [| intros ?]
    | apply preserves_ret
    | apply preserves_lift
    | match goal with
      | |- preserves _ (if ?b then _ else _) => destruct b
      | |- preserves _ (match ?x with _ => _ end) => destruct x
      | |- preserves _ (print _) => intros ?; reflexivity
      | |- preserves _ (deref _) => intros ?; reflexivity
      | |- preserves _ (df_get _ _) => intros ?; reflexivity
      | |- preserves _ (path_exists _) => intros ?; reflexivity
      | |- preserves _ (yf_history _) => intros ?; reflexivity
      | |- preserves _ (df_set _ _ _) => intros ?; reflexivity
      | |- preserves _ (write_file _ _) => intros ?; reflexivity
      end ].

Lemma fetch_prices_preserves {X : Type} (proj : world -> X)
    (tickers : list cell) (prices : gmap cell float) :
  (forall l q w, proj (logged l q w) = proj w) ->
  preserves proj (fetch_prices tickers prices).
Proof.
  intros H w. rewrite fetch_prices_run. apply H.
Qed.

Lemma get_live_prices_preserves {X : Type} (proj : world -> X) (tickers : list cell) :
  (forall l q w, proj (logged l q w) = proj w) ->
  preserves proj (get_live_prices tickers).
Proof.
  intros H w. rewrite get_live_prices_run. apply H.
Qed.

Lemma derive_columns_files (r : ref) (p : gmap cell float) :
  preserves files (derive_columns r p).
Proof. unfold derive_columns. frame. Qed.

Lemma derive_columns_requests (r : ref) (p : gmap cell float) :
  preserves requests (derive_columns r p).
Proof. unfold derive_columns. frame. Qed.

Lemma derive_columns_console (r : ref) (p : gmap cell float) :
  preserves console (derive_columns r p).
Proof. unfold derive_columns. frame. Qed.

Lemma derive_columns_others (r r' : ref) (p : gmap cell float) :
  r' <> r -> preserves (fun w => heap w !! r') (derive_columns r p).
Proof.
  intros Hne. unfold derive_columns. frame; apply preserves_df_set_other, Hne.
Qed.

Lemma derive_columns_length (r : ref) (p : gmap cell float) :
  preserves (fun w => length (heap w)) (derive_columns r p).
Proof. unfold derive_columns. frame; apply preserves_df_set_length. Qed.

(** ** Loading, further *)

(** X1: a portfolio file that parses is accepted exactly when the three
    required labels are among its columns, in whatever order and with
    whatever other columns. When accepted, the result is a reference that
    did not exist before and that holds the table of the file. *)
Theorem load_portfolio_accepts (path : string) (w : world) (df : DataFrame) :
  files w !! path = Some (Csv df) ->
  (required_columns ⊆ columns df ->
     fst (load_portfolio path w) = Ok (Some (length (heap w))) /\
     heap w !! length (heap w) = None /\
     heap (snd (load_portfolio path w)) !! length (heap w) = Some df) /\
  (~ required_columns ⊆ columns df -> fst (load_portfolio path w) = Ok None).
Proof.
  intros Hfile. rewrite (load_portfolio_read path w df Hfile).
  destruct (forallb _ required_columns) eqn:E.
  - split; [| intros Hn; exfalso; apply Hn].
    + intros _. cbn [fst snd heap logged set_heap]. split; [reflexivity |].
      split; [apply lookup_ge_None_2; lia |].
      rewrite lookup_app_r by lia.
      replace (length (heap w) - length (heap w)) with 0 by lia. reflexivity.
    + intros col Hcol. rewrite forallb_forall in E.
      apply list_elem_of_In in Hcol. specialize (E col Hcol).
      apply bool_decide_eq_true in E. exact E.
  - split; [| intros _; reflexivity].
    intros Hsub. exfalso.
    assert (forallb (fun c => bool_decide (c ∈ columns df)) required_columns = true);
      [| congruence].
    apply forallb_forall. intros col Hcol.
    apply bool_decide_eq_true, Hsub, list_elem_of_In, Hcol.
Qed.

Lemma load_portfolio_accepts_witness :
  fst (load_portfolio PORTFOLIO_CSV_PATH (fresh_world noted_table lots_market)) = Ok (Some 0) /\
  fst (load_portfolio PORTFOLIO_CSV_PATH (fresh_world short_table lots_market)) = Ok None.
Proof.
  split.
  - apply (load_portfolio_accepts PORTFOLIO_CSV_PATH (fresh_world noted_table lots_market)
             noted_table); [reflexivity |].
    intros col Hcol. vm_compute in Hcol. vm_compute.
    repeat (apply elem_of_cons in Hcol; destruct Hcol as [-> | Hcol];
            [repeat first [apply list_elem_of_here | apply list_elem_of_further] |]).
    apply elem_of_nil in Hcol. destruct Hcol.
  - apply (load_portfolio_accepts PORTFOLIO_CSV_PATH (fresh_world short_table lots_market)
             short_table); [reflexivity |].
    intros Hsub.
    assert (Hq : "Quantity" ∈ columns short_table).
    { apply Hsub. apply list_elem_of_further, list_elem_of_here. }
    vm_compute in Hq.
    repeat (apply elem_of_cons in Hq; destruct Hq as [Hq | Hq]; [discriminate |]).
    apply elem_of_nil in Hq. exact Hq.
Defined.

(** X2: [load_portfolio] only reads. For every path and every world,
    whatever it returns or raises, the files are what they were, the
    provider was not asked, and the tables that existed are still there,
    each behind its reference. *)
Theorem load_portfolio_only_reads (path : string) (w : world) :
  files (snd (load_portfolio path w)) = files w /\
  requests (snd (load_portfolio path w)) = requests w /\
  heap w `prefix_of` heap (snd (load_portfolio path w)).
Proof.
  split; [| split].
  - revert w. change (preserves files (load_portfolio path)).
    unfold load_portfolio. frame. apply preserves_read_csv. reflexivity.
  - revert w. change (preserves requests (load_portfolio path)).
    unfold load_portfolio. frame. apply preserves_read_csv. reflexivity.
  - destruct (files w !! path) as [[df | bars] |] eqn:E.
    + rewrite (load_portfolio_read path w df E).
      destruct (forallb _ required_columns); cbn [snd heap logged set_heap];
        apply prefix_app_r; reflexivity.
    + unfold load_portfolio, path_exists. rewrite bind_run, E.
      rewrite bool_decide_eq_true_2 by (eexists; reflexivity).
      cbn [negb]. run_steps. unfold read_csv. cbn [files logged]. rewrite E.
      reflexivity.
    + rewrite (load_portfolio_missing path w E). reflexivity.
Qed.

(** ** Quotes, further *)

Lemma unique_acc_NoDup (seen : list cell) (s : Series) :
  NoDup (unique_acc seen s).
Proof.
  revert seen. induction s as [|c s IH]; intros seen; cbn [unique_acc].
  - apply NoDup_nil_2.
  - case_bool_decide as Hc; [apply IH |].
    apply NoDup_cons_2; [| apply IH].
    rewrite elem_of_unique_acc. intros [_ Hn]. apply Hn, list_elem_of_here.
Qed.

Lemma calculate_performance_steps (r : ref) (w : world) (df : DataFrame) (tk : Series) :
  heap w !! r = Some df ->
  getitem df "Ticker" = Ok tk ->
  calculate_performance r w =
  (derive_columns r (quotes (market w) (Series_unique tk) ∅) ≫= fun _ => mret r)
    (logged ([[Lit "Calculating portfolio performance..."];
              [Lit "Fetching live market data..."]]
             ++ notices (market w) (Series_unique tk))
            (Series_unique tk) w).
Proof.
  intros Hr Ht. unfold calculate_performance.
  rewrite bind_run, print_run. cbv beta iota.
  rewrite bind_run, df_get_run. cbn [heap logged]. rewrite Hr. cbn [from_option id].
  rewrite Ht. rewrite bind_run, get_live_prices_run, logged_logged. reflexivity.
Qed.

(** X3: whatever happens afterwards, [calculate_performance] on a table
    with a Ticker column asks the provider exactly once for each distinct
    ticker of that column, in the order in which the tickers first appear:
    no ticker is asked twice, however many lots it has, and none is left
    out. *)
Theorem one_request_per_distinct_ticker (r : ref) (w : world) (df : DataFrame)
    (tk : Series) :
  heap w !! r = Some df ->
  getitem df "Ticker" = Ok tk ->
  exists asked : list cell,
    requests (snd (calculate_performance r w)) = requests w ++ asked /\
    asked = Series_unique tk /\
    NoDup asked /\
    (forall t, t ∈ asked <-> t ∈ tk).
Proof.
  intros Hr Ht. exists (Series_unique tk).
  split; [| split; [reflexivity | split]].
  - rewrite (calculate_performance_steps r w df tk Hr Ht).
    assert (P : preserves requests
      (derive_columns r (quotes (market w) (Series_unique tk) ∅) ≫= fun _ => mret r)).
    { apply preserves_bind; [apply derive_columns_requests | intros ?; apply preserves_ret]. }
    rewrite P. reflexivity.
  - apply unique_acc_NoDup.
  - intros t. apply elem_of_Series_unique.
Qed.

Lemma one_request_per_distinct_ticker_witness :
  requests (snd (calculate_performance 0 (loaded_world lots_table lots_market))) =
    [CStr "AAPL"; CStr "GOOG"].
Proof.
  destruct (one_request_per_distinct_ticker 0 (loaded_world lots_table lots_market)
              lots_table [CStr "AAPL"; CStr "AAPL"; CStr "GOOG"] eq_refl eq_refl)
    as (asked & Hreq & Hasked & _).
  rewrite Hreq, Hasked. reflexivity.
Defined.

(** X4: the lines [get_live_prices] prints are its heading and one line for
    every request that gave no price, in the order of the requests; a ticker
    that has a price prints nothing. The tables and the files are left
    alone. *)
Theorem get_live_prices_lines (tickers : list cell) (w : world) :
  let w' := snd (get_live_prices tickers w) in
  console w' = console w ++ [Lit "Fetching live market data..."]
                         :: flat_map (fun t => notice t (market w t)) tickers /\
  length (console w') =
    length (console w) + 1 + length (filter (fun t => is_failure (market w t) = true) tickers) /\
  heap w' = heap w /\
  files w' = files w.
Proof.
  cbv zeta. rewrite get_live_prices_run. cbn [snd console heap files logged].
  split; [reflexivity | split; [| split; reflexivity]].
  rewrite length_app. cbn [length]. unfold notices.
  assert (H : length (flat_map (fun t => notice t (market w t)) tickers) =
              length (filter (fun t => is_failure (market w t) = true) tickers)).
  { induction tickers as [|t rest IH]; [reflexivity |].
    cbn [flat_map]. rewrite length_app, IH, filter_cons.
    destruct (market w t); cbn [is_failure notice length];
      case_decide; try discriminate; try congruence; reflexivity. }
  rewrite H. lia.
Qed.

(** ** The calculation on tables it cannot handle *)

(** X5: on a table without a Ticker column [calculate_performance] raises
    [KeyError] for that label right after its first line: the provider is
    not asked and no table is changed. *)
Theorem calculate_performance_without_ticker (r : ref) (w : world) (df : DataFrame) :
  heap w !! r = Some df ->
  "Ticker" ∉ columns df ->
  fst (calculate_performance r w) = Raise (KeyError "Ticker") /\
  heap (snd (calculate_performance r w)) = heap w /\
  requests (snd (calculate_performance r w)) = requests w /\
  files (snd (calculate_performance r w)) = files w /\
  console (snd (calculate_performance r w)) =
    console w ++ [[Lit "Calculating portfolio performance..."]].
Proof.
  intros Hr Hn. unfold calculate_performance.
  rewrite bind_run, print_run. cbv beta iota.
  rewrite bind_run, df_get_run. cbn [heap logged]. rewrite Hr. cbn [from_option id].
  rewrite (getitem_missing df "Ticker" Hn).
  cbn [fst snd heap requests files console logged]. rewrite app_nil_r.
  repeat split; reflexivity.
Qed.

Lemma calculate_performance_without_ticker_witness :
  fst (calculate_performance 0 (loaded_world [("Quantity", nums [10]%Z)] lots_market)) =
    Raise (KeyError "Ticker").
Proof.
  apply (calculate_performance_without_ticker 0
           (loaded_world [("Quantity", nums [10]%Z)] lots_market)
           [("Quantity", nums [10]%Z)] eq_refl).
  intros H. vm_compute in H.
  repeat (apply elem_of_cons in H; destruct H as [H | H]; [discriminate |]).
  apply elem_of_nil in H. exact H.
Defined.

(** X6: on a table with a Ticker column but without a Quantity column
    [calculate_performance] raises [KeyError] for Quantity only after it has
    fetched the quotes and assigned the CurrentPrice column: the caller's
    table is left with that one column added (or replaced) and with none of
    the other derived columns assigned. *)
Theorem calculate_performance_without_quantity (r : ref) (w : world)
    (df : DataFrame) (tk : Series) :
  heap w !! r = Some df ->
  getitem df "Ticker" = Ok tk ->
  "Quantity" ∉ columns df ->
  let w' := snd (calculate_performance r w) in
  let p := quotes (market w) (Series_unique tk) ∅ in
  fst (calculate_performance r w) = Raise (KeyError "Quantity") /\
  heap w' !! r = Some (setitem df "CurrentPrice" (Series_map tk p)) /\
  requests w' = requests w ++ Series_unique tk /\
  files w' = files w.
Proof.
  intros Hr Ht Hn.
  assert (Hlt : r < length (heap w)) by (eapply lookup_lt_Some; exact Hr).
  cbv zeta. rewrite (calculate_performance_steps r w df tk Hr Ht).
  set (w1 := logged _ _ w).
  assert (Hr1 : heap w1 !! r = Some df) by exact Hr.
  assert (Hlt1 : r < length (heap w1)) by exact Hlt.
  rewrite bind_run. unfold derive_columns.
  rewrite <- (upd_same r df w1 Hr1) at 1 2 3 4.
  rewrite bind_run, df_get_upd by exact Hlt1. rewrite Ht. cbv beta iota.
  rewrite bind_run, df_set_upd by exact Hlt1. cbv beta iota.
  rewrite bind_run, df_get_upd by exact Hlt1.
  rewrite getitem_setitem_ne by discriminate.
  rewrite (getitem_missing df "Quantity" Hn). cbv beta iota.
  cbn [fst snd]. split; [reflexivity |].
  split; [apply heap_upd; exact Hlt1 |].
  split; reflexivity.
Qed.

Lemma calculate_performance_without_quantity_witness :
  fst (calculate_performance 0 (loaded_world short_table lots_market)) =
    Raise (KeyError "Quantity") /\
  columns <$> heap (snd (calculate_performance 0
                          (loaded_world short_table lots_market))) !! 0 =
    Some ["Ticker"; "PurchasePrice"; "CurrentPrice"].
Proof.
  assert (Hn : "Quantity" ∉ columns short_table).
  { intros H. vm_compute in H.
    repeat (apply elem_of_cons in H; destruct H as [H | H]; [discriminate |]).
    apply elem_of_nil in H. exact H. }
  destruct (calculate_performance_without_quantity 0
              (loaded_world short_table lots_market) short_table [CStr "AAPL"]
              eq_refl eq_refl Hn) as (Hraise & Hheap & _).
  split; [exact Hraise |].
  exact (f_equal (fmap columns) Hheap).
Defined.

(** X7: for every table and every world, whatever it returns or raises,
    [calculate_performance] changes no file, creates no table and changes no
    table but the one it was given. *)
Theorem calculate_performance_touches_one_table (r r' : ref) (w : world) :
  r' <> r ->
  files (snd (calculate_performance r w)) = files w /\
  length (heap (snd (calculate_performance r w))) = length (heap w) /\
  heap (snd (calculate_performance r w)) !! r' = heap w !! r'.
Proof.
  intros Hne. split; [| split]; revert w.
  - change (preserves files (calculate_performance r)).
    unfold calculate_performance. frame.
    all: first [ apply fetch_prices_preserves; reflexivity
               | apply derive_columns_files ].
  - change (preserves (fun w => length (heap w)) (calculate_performance r)).
    unfold calculate_performance. frame.
    all: first [ apply fetch_prices_preserves; reflexivity
               | apply derive_columns_length
               | apply preserves_df_set_length ].
  - change (preserves (fun w => heap w !! r') (calculate_performance r)).
    unfold calculate_performance. frame.
    all: first [ apply fetch_prices_preserves; reflexivity
               | apply derive_columns_others, Hne
               | apply preserves_df_set_other, Hne ].
Qed.

Lemma calculate_performance_touches_one_table_witness :
  heap (snd (calculate_performance 0
               (World [lots_table; gift_table] ∅ [] [] lots_market))) !! 1 =
    Some gift_table.
Proof.
  apply (calculate_performance_touches_one_table 0 1
           (World [lots_table; gift_table] ∅ [] [] lots_market)).
  discriminate.
Defined.

(** ** Percentage return, further *)

Lemma zero_cost_return (pv cv : float) :
  F64.is_zero pv = true ->
  let x := fillna0 (F64.mul (F64.div (F64.sub cv pv) pv) F64.hundred) in
  (F64.is_nan cv || F64.is_zero cv = true -> x = F64.zero) /\
  (F64.is_nan cv || F64.is_zero cv = false -> F64.is_inf x = true).
Proof.
  destruct pv as [sp | | |]; try discriminate. intros _.
  destruct cv as [sc | sc | | sc m e]; cbn [F64.is_nan F64.is_zero orb]; cbv zeta;
    split; intros H; try discriminate H;
    try (destruct sp, sc; reflexivity); reflexivity.
Qed.

Lemma calculated_percentage_column (r : ref) (w : world) (df : DataFrame)
    (hs : list HoldingRecord) :
  heap w !! r = Some df ->
  has_holdings df hs ->
  column_of (snd (calculate_performance r w)) r "PercentageReturn" =
  Ok (num_column (percentage_return (live_quotes (market w) hs)) hs).
Proof.
  intros Hr Hh.
  assert (Hlt : r < length (heap w)) by (eapply lookup_lt_Some; exact Hr).
  rewrite (calculate_performance_run r w df hs Hr Hh). cbn [snd].
  unfold column_of. rewrite heap_upd by exact Hlt. cbn [from_option id].
  apply with_metrics_derived.
Qed.

(** X8: after [calculate_performance] on a table of holdings the
    PercentageReturn column has one number for every holding and none of
    them is NaN, whatever the quantities, prices and quotes are. *)
Theorem percentage_return_is_never_nan (r : ref) (w : world) (df : DataFrame)
    (hs : list HoldingRecord) :
  heap w !! r = Some df ->
  has_holdings df hs ->
  exists col : Series,
    column_of (snd (calculate_performance r w)) r "PercentageReturn" = Ok col /\
    length col = length hs /\
    Forall (fun c => exists x, c = CNum x /\ F64.is_nan x = false) col.
Proof.
  intros Hr Hh. eexists. split; [apply (calculated_percentage_column r w df hs Hr Hh) |].
  unfold num_column. split; [apply length_map |].
  apply Forall_map, Forall_forall. intros h _. eexists. split; [reflexivity |].
  apply percentage_return_not_nan.
Qed.

Lemma percentage_return_is_never_nan_witness :
  exists col : Series,
    column_of (snd (calculate_performance 0 (loaded_world gift_table gift_market))) 0
      "PercentageReturn" = Ok col /\
    length col = 1.
Proof.
  destruct (percentage_return_is_never_nan 0 (loaded_world gift_table gift_market)
              gift_table [Holding (CStr "GIFT") (F64.of_Z 10) F64.zero] eq_refl
              (conj eq_refl (conj eq_refl eq_refl))) as (col & Hcol & Hlen & _).
  exists col. split; [exact Hcol | exact Hlen].
Defined.

(** X9: a holding whose purchase value quantity * purchase price is zero
    gets, in its row of the PercentageReturn column, 0.0 when its current
    value quantity * quote is zero or NaN, and an infinity in every other
    case. The quote is the price recorded for its ticker. *)
Theorem zero_cost_return_is_zero_or_infinite (r : ref) (w : world) (df : DataFrame)
    (hs : list HoldingRecord) (i : nat) (h : HoldingRecord) :
  heap w !! r = Some df ->
  has_holdings df hs ->
  hs !! i = Some h ->
  F64.is_zero (F64.mul (quantity h) (purchasePrice h)) = true ->
  let cv := F64.mul (quantity h) (price_of (market w (ticker h))) in
  exists (col : Series) (x : float),
    column_of (snd (calculate_performance r w)) r "PercentageReturn" = Ok col /\
    col !! i = Some (CNum x) /\
    (F64.is_nan cv || F64.is_zero cv = true -> x = F64.zero) /\
    (F64.is_nan cv || F64.is_zero cv = false -> F64.is_inf x = true).
Proof.
  intros Hr Hh Hi Hz cv. eexists _, _.
  split; [apply (calculated_percentage_column r w df hs Hr Hh) |].
  split.
  - apply num_column_lookup. exact Hi.
  - unfold percentage_return, profit_loss, current_value, current_price, purchase_value.
    rewrite live_quotes_lookup by (eapply list_elem_of_lookup_2; exact Hi).
    cbn [from_option id]. apply (zero_cost_return _ cv Hz).
Qed.

Lemma zero_cost_return_is_zero_or_infinite_witness :
  exists (col : Series) (x : float),
    column_of (snd (calculate_performance 0 (loaded_world gift_table gift_market))) 0
      "PercentageReturn" = Ok col /\
    col !! 0 = Some (CNum x) /\
    F64.is_inf x = true.
Proof.
  destruct (zero_cost_return_is_zero_or_infinite 0 (loaded_world gift_table gift_market)
              gift_table [Holding (CStr "GIFT") (F64.of_Z 10) F64.zero] 0
              (Holding (CStr "GIFT") (F64.of_Z 10) F64.zero) eq_refl
              (conj eq_refl (conj eq_refl eq_refl)) eq_refl eq_refl)
    as (col & x & Hcol & Hx & _ & Hinf).
  exists col, x. split; [exact Hcol | split; [exact Hx |]].
  apply Hinf. vm_compute. reflexivity.
Defined.

(** ** The report and the chart, further *)



(** X11: [generate_visualization] prints its one line, asks the provider
    nothing and changes no table. When it raises, no file was written; when
    it returns, the only file written is the chart at its path. *)
Theorem chart_writes_one_file_or_none (r : ref) (path : string) (w : world) :
  heap (snd (generate_visualization r path w)) = heap w /\
  requests (snd (generate_visualization r path w)) = requests w /\
  console (snd (generate_visualization r path w)) =
    console w ++ [[Lit "Generating portfolio distribution chart to '"; Lit path;
                   Lit "'..."]] /\
  match fst (generate_visualization r path w) with
  | Raise _ => files (snd (generate_visualization r path w)) = files w
  | Ok _ => exists bars : list bar,
      files (snd (generate_visualization r path w)) = <[path := Png bars]> (files w)
  end.
Proof.
  unfold generate_visualization, chart_data, lift, write_file.
  run_steps. cbn [heap logged].
  destruct (getitem _ "Ticker");
    [| cbn [fst snd heap requests console files logged]; rewrite app_nil_r;
       repeat split; reflexivity].
  run_steps. cbn [heap logged].
  destruct (getitem _ "CurrentValue");
    [| cbn [fst snd heap requests console files logged]; rewrite app_nil_r;
       repeat split; reflexivity].
  run_steps.
  destruct (groupby_sum _ _);
    [| cbn [fst snd heap requests console files logged]; rewrite app_nil_r;
       repeat split; reflexivity].
  run_steps. unfold mret, M_ret. cbv beta iota. run_steps.
  destruct (ndarray_max _);
    cbn [fst snd heap requests console files logged set_files]; rewrite app_nil_r;
    repeat split; try reflexivity.
  eexists. reflexivity.
Qed.

(** ** The whole run *)

Lemma main_files_elsewhere (q : string) :
  q <> REPORT_CSV_PATH -> q <> CHART_PNG_PATH ->
  preserves (fun w => files w !! q) main.
Proof.
  intros Hr Hc. unfold main. frame.
  all: first [ apply preserves_read_csv; reflexivity
             | apply fetch_prices_preserves; reflexivity
             | apply preserves_write_other; assumption ].
Qed.

(** X12: whatever the world is and however the run ends, [main] creates,
    changes or removes no file other than the report and the chart. A
    portfolio file is never written to. *)
Theorem main_writes_only_report_and_chart (q : string) (w : world) :
  q <> REPORT_CSV_PATH ->
  q <> CHART_PNG_PATH ->
  files (snd (main w)) !! q = files w !! q.
Proof. intros Hr Hc. apply (main_files_elsewhere q Hr Hc w). Qed.

Lemma main_writes_only_report_and_chart_witness :
  files (snd (main (fresh_world lots_table lots_market))) !! PORTFOLIO_CSV_PATH =
    Some (Csv lots_table).
Proof.
  rewrite (main_writes_only_report_and_chart PORTFOLIO_CSV_PATH
             (fresh_world lots_table lots_market)) by discriminate.
  reflexivity.
Defined.

(** ** The order of the bars *)

Lemma ltb_asym (x y : float) : F64.ltb x y = true -> F64.ltb y x = false.
Proof.
  unfold F64.ltb, SFltb, SFcompare.
  destruct x as [sx | sx | | sx mx ex], y as [sy | sy | | sy my ey];
    try destruct sx; try destruct sy; try discriminate; try reflexivity.
  all: assert (Hm : Pos.compare_cont Eq my mx = CompOpp (Pos.compare_cont Eq mx my))
    by (symmetry; apply (Pos.compare_cont_antisym mx my Eq)).
  all: rewrite (Z.compare_antisym ex ey), Hm.
  all: destruct (ex ?= ey)%Z; cbn [CompOpp]; try discriminate; try reflexivity.
  all: destruct (Pos.compare_cont Eq mx my); cbn [CompOpp]; try discriminate; reflexivity.
Qed.

Lemma strictly_before_asym (x y : float) :
  strictly_before x y = true -> strictly_before y x = false.
Proof.
  unfold strictly_before.
  destruct (F64.is_nan x) eqn:Ex; [discriminate |].
  destruct (F64.is_nan y) eqn:Ey; [reflexivity |].
  apply ltb_asym.
Qed.

Lemma insert_desc_perm (x : cell * float) (l : list (cell * float)) :
  insert_desc x l ≡ₚ x :: l.
Proof.
  induction l as [|y l IH]; cbn [insert_desc]; [reflexivity |].
  destruct (strictly_before (snd y) (snd x)); [| reflexivity].
  rewrite IH. apply Permutation_swap.
Qed.

Lemma insert_desc_sorted (x : cell * float) (l : list (cell * float)) :
  Sorted not_after l -> Sorted not_after (insert_desc x l).
Proof.
  induction 1 as [|y l Hs IH Hhd]; cbn [insert_desc].
  - repeat constructor.
  - destruct (strictly_before (snd y) (snd x)) eqn:E.
    + constructor; [exact IH |].
      destruct l as [|z l]; cbn [insert_desc].
      * constructor. apply strictly_before_asym, E.
      * destruct (strictly_before (snd z) (snd x)).
        -- constructor. inversion Hhd; assumption.
        -- constructor. apply strictly_before_asym, E.
    + constructor; [constructor; assumption |]. constructor. exact E.
Qed.

(** [sort_values_desc] keeps every entry and puts them so that no entry is
    strictly larger than the entry before it and no NaN stands before a
    number. *)
Lemma sort_values_desc_sorted (l : list (cell * float)) :
  sort_values_desc l ≡ₚ l /\ Sorted not_after (sort_values_desc l).
Proof.
  unfold sort_values_desc. induction l as [|x l [IHp IHs]]; cbn [foldr].
  - split; [reflexivity | constructor].
  - split.
    + rewrite insert_desc_perm, IHp. reflexivity.
    + apply insert_desc_sorted, IHs.
Qed.

(** ** One bar for every ticker *)

Lemma group_insert_keys (k v k' : cell) (gs : list (cell * Series)) :
  k' ∈ map fst (group_insert k v gs) <-> k' = k \/ k' ∈ map fst gs.
Proof.
  induction gs as [|[k0 vs] gs IH]; cbn [group_insert map fst].
  - rewrite list_elem_of_singleton, elem_of_nil. tauto.
  - case_bool_decide as Hk.
    + subst k0. cbn [map fst]. rewrite elem_of_cons. tauto.
    + destruct (cell_ltb k k0); cbn [map fst].
      * rewrite !elem_of_cons. tauto.
      * rewrite !elem_of_cons, IH. tauto.
Qed.

Lemma group_insert_numeric (k : cell) (x : float) (gs : list (cell * Series)) :
  Forall (fun g => exists xs : list float, snd g = map CNum xs) gs ->
  Forall (fun g => exists xs : list float, snd g = map CNum xs) (group_insert k (CNum x) gs).
Proof.
  induction 1 as [|[k0 vs] gs [xs Hxs] Hgs IH]; cbn [group_insert].
  - constructor; [| constructor]. exists [x]. reflexivity.
  - cbn [snd] in Hxs. case_bool_decide.
    + constructor; [| exact Hgs]. exists (xs ++ [x]).
      cbn [snd]. rewrite Hxs, map_app. reflexivity.
    + destruct (cell_ltb k k0).
      * constructor; [exists [x]; reflexivity |].
        constructor; [exists xs; exact Hxs | exact Hgs].
      * constructor; [exists xs; exact Hxs | exact IH].
Qed.

Lemma group_rows_keys (f : HoldingRecord -> float) (hs : list HoldingRecord)
    (gs : list (cell * Series)) (k : cell) :
  k ∈ map fst (group_rows (map ticker hs) (num_column f hs) gs) <->
  k ∈ map fst gs \/ (k ∈ map ticker hs /\ is_missing k = false).
Proof.
  revert gs. induction hs as [|h hs IH]; intros gs; cbn [map num_column group_rows].
  - rewrite elem_of_nil. tauto.
  - fold (num_column f hs). rewrite IH, elem_of_cons.
    destruct (is_missing (ticker h)) eqn:E.
    + split; [tauto |]. intros [H | [[-> | H] Hm]]; [tauto | congruence | tauto].
    + rewrite group_insert_keys. split.
      * intros [[-> | H] | H]; tauto.
      * intros [H | [[-> | H] Hm]]; tauto.
Qed.

Lemma group_rows_numeric (f : HoldingRecord -> float) (hs : list HoldingRecord)
    (gs : list (cell * Series)) :
  Forall (fun g => exists xs : list float, snd g = map CNum xs) gs ->
  Forall (fun g => exists xs : list float, snd g = map CNum xs)
         (group_rows (map ticker hs) (num_column f hs) gs).
Proof.
  revert gs. induction hs as [|h hs IH]; intros gs Hgs; cbn [map num_column group_rows].
  - exact Hgs.
  - fold (num_column f hs). apply IH.
    destruct (is_missing (ticker h)); [exact Hgs |].
    apply group_insert_numeric, Hgs.
Qed.

Lemma sum_groups_numeric (gs : list (cell * Series)) :
  Forall (fun g => exists xs : list float, snd g = map CNum xs) gs ->
  exists sums,
    sum_groups gs = Ok sums /\
    map fst sums = map fst gs /\
    (forall k v, (k, v) ∈ sums ->
       exists xs, (k, map CNum xs) ∈ gs /\ v = group_total xs).
Proof.
  induction 1 as [|[k vs] gs [xs Hxs] _ (sums & Hs & Hk & Hv)]; cbn [sum_groups].
  - exists []. split; [reflexivity | split; [reflexivity |]].
    intros k v H. apply elem_of_nil in H. destruct H.
  - cbn [snd] in Hxs. subst vs. unfold group_sum.
    change (map CNum xs) with (num_column (fun x : float => x) xs).
    rewrite as_floats_column, map_id, Hs. eexists.
    split; [reflexivity | split].
    + cbn [map fst]. rewrite Hk. reflexivity.
    + intros k' v H. apply elem_of_cons in H. destruct H as [H | H].
      * injection H as -> ->. exists xs. split; [apply list_elem_of_here | reflexivity].
      * destruct (Hv k' v H) as (ys & Hin & ->).
        exists ys. split; [apply list_elem_of_further, Hin | reflexivity].
Qed.

Lemma chart_data_run (r : ref) (w : world) (df : DataFrame)
    (hs : list HoldingRecord) (f : HoldingRecord -> float) :
  heap w !! r = Some df ->
  getitem df "Ticker" = Ok (map ticker hs) ->
  getitem df "CurrentValue" = Ok (num_column f hs) ->
  exists sums : list (cell * float),
    chart_data r w = (Ok (sort_values_desc sums), w) /\
    (forall k, k ∈ map fst sums <-> k ∈ map ticker hs /\ is_missing k = false).
Proof.
  intros Hr Ht Hv.
  destruct (sum_groups_numeric (group_rows (map ticker hs) (num_column f hs) []))
    as (sums & Hs & Hk & _); [apply group_rows_numeric; constructor |].
  exists sums. split.
  - unfold chart_data. run_steps. rewrite Hr. cbn [from_option id]. rewrite Ht.
    run_steps. rewrite Hr. cbn [from_option id]. rewrite Hv.
    run_steps. unfold lift, groupby_sum. rewrite Hs. reflexivity.
  - intros k. rewrite Hk, group_rows_keys. cbn [map]. rewrite elem_of_nil. tauto.
Qed.

(** *** The order of text keys *)

Lemma ascii_compare_lt (x y : ascii) :
  Ascii.compare x y = Lt <-> (N_of_ascii x < N_of_ascii y)%N.
Proof. unfold Ascii.compare. apply N.compare_lt_iff. Qed.

Lemma ascii_compare_refl (x : ascii) : Ascii.compare x x = Eq.
Proof. unfold Ascii.compare. apply N.compare_refl. Qed.

Lemma string_compare_refl (a : string) : String.compare a a = Eq.
Proof.
  induction a as [|x a IH]; cbn [String.compare]; [reflexivity |].
  rewrite ascii_compare_refl. exact IH.
Qed.

Lemma string_compare_trans (a b c : string) :
  String.compare a b = Lt -> String.compare b c = Lt -> String.compare a c = Lt.
Proof.
  revert b c. induction a as [|x a IH]; intros [|y b] [|z c]; cbn [String.compare];
    try congruence.
  destruct (Ascii.compare x y) eqn:Exy; try discriminate;
    destruct (Ascii.compare y z) eqn:Eyz; try discriminate; intros Hab Hbc.
  - apply Ascii.compare_eq_iff in Exy, Eyz. subst y z.
    rewrite ascii_compare_refl. eapply IH; eassumption.
  - apply Ascii.compare_eq_iff in Exy. subst y. rewrite Eyz. reflexivity.
  - apply Ascii.compare_eq_iff in Eyz. subst z. rewrite Exy. reflexivity.
  - apply (proj1 (ascii_compare_lt _ _)) in Exy.
    apply (proj1 (ascii_compare_lt _ _)) in Eyz.
    assert (E : Ascii.compare x z = Lt) by (apply ascii_compare_lt; lia).
    rewrite E. reflexivity.
Qed.

Lemma text_ltb_irrefl (k : cell) : is_text k = true -> cell_ltb k k = false.
Proof.
  destruct k as [a | x]; [| discriminate]. intros _.
  cbn [cell_ltb]. unfold String.ltb. rewrite string_compare_refl. reflexivity.
Qed.

Lemma text_ltb_trans (a b c : cell) :
  is_text a = true -> is_text b = true -> is_text c = true ->
  cell_ltb a b = true -> cell_ltb b c = true -> cell_ltb a c = true.
Proof.
  destruct a as [a | ?], b as [b | ?], c as [c | ?]; try discriminate.
  intros _ _ _. cbn [cell_ltb]. unfold String.ltb.
  destruct (String.compare a b) eqn:Eab; try discriminate.
  destruct (String.compare b c) eqn:Ebc; try discriminate.
  rewrite (string_compare_trans a b c Eab Ebc). reflexivity.
Qed.

Lemma text_ltb_total (a b : cell) :
  is_text a = true -> is_text b = true ->
  a <> b -> cell_ltb a b = false -> cell_ltb b a = true.
Proof.
  destruct a as [a | ?], b as [b | ?]; try discriminate.
  intros _ _ Hne. cbn [cell_ltb]. unfold String.ltb.
  rewrite (String.compare_antisym b a).
  destruct (String.compare a b) eqn:E; try discriminate; [| reflexivity].
  apply String.compare_eq_iff in E. congruence.
Qed.

(** *** Groups with text keys *)

Lemma group_get_above (k : cell) (gs : list (cell * Series)) :
  is_text k = true ->
  Forall (fun g => cell_ltb k (fst g) = true) gs ->
  group_get k gs = [].
Proof.
  intros Hk. induction 1 as [|[k0 vs] gs Hlt _ IH]; cbn [group_get]; [reflexivity |].
  cbn [fst] in Hlt. case_bool_decide as E; [| exact IH].
  subst k0. rewrite text_ltb_irrefl in Hlt by exact Hk. discriminate.
Qed.

Lemma group_insert_text (k v : cell) (gs : list (cell * Series)) :
  is_text k = true ->
  Forall (fun g => is_text (fst g) = true) gs ->
  Forall (fun g => is_text (fst g) = true) (group_insert k v gs).
Proof.
  intros Hk. induction 1 as [|[k0 vs] gs Hk0 Hgs IH]; cbn [group_insert].
  - constructor; [exact Hk | constructor].
  - case_bool_decide.
    + constructor; assumption.
    + destruct (cell_ltb k k0).
      * constructor; [exact Hk |]. constructor; assumption.
      * constructor; assumption.
Qed.

Lemma group_insert_bound (k v k1 : cell) (gs : list (cell * Series)) :
  cell_ltb k1 k = true ->
  Forall (fun g => cell_ltb k1 (fst g) = true) gs ->
  Forall (fun g => cell_ltb k1 (fst g) = true) (group_insert k v gs).
Proof.
  intros Hk. induction 1 as [|[k0 vs] gs Hk0 Hgs IH]; cbn [group_insert].
  - constructor; [exact Hk | constructor].
  - case_bool_decide.
    + constructor; assumption.
    + destruct (cell_ltb k k0).
      * constructor; [exact Hk |]. constructor; assumption.
      * constructor; assumption.
Qed.

Lemma group_insert_sorted (k v : cell) (gs : list (cell * Series)) :
  is_text k = true ->
  Forall (fun g => is_text (fst g) = true) gs ->
  StronglySorted key_before gs ->
  StronglySorted key_before (group_insert k v gs).
Proof.
  intros Hk Ht Hs. induction Hs as [|[k0 vs] gs Hs IH Hall]; cbn [group_insert].
  - repeat constructor.
  - apply Forall_cons in Ht. destruct Ht as [Hk0 Ht]. cbn [fst] in Hk0.
    case_bool_decide as E.
    + constructor; assumption.
    + destruct (cell_ltb k k0) eqn:Elt.
      * constructor; [constructor; assumption |].
        constructor; [exact Elt |].
        rewrite Forall_forall in *. intros g Hg. unfold key_before. cbn [fst].
        apply (text_ltb_trans k k0 (fst g)); auto. apply (Hall g Hg).
      * constructor; [apply IH, Ht |].
        apply group_insert_bound; [| exact Hall].
        apply text_ltb_total; auto.
Qed.

Lemma group_insert_get (k v k' : cell) (gs : list (cell * Series)) :
  is_text k = true ->
  Forall (fun g => is_text (fst g) = true) gs ->
  StronglySorted key_before gs ->
  group_get k' (group_insert k v gs) =
  if bool_decide (k' = k) then group_get k gs ++ [v] else group_get k' gs.
Proof.
  intros Hk Ht Hs. induction Hs as [|[k0 vs] gs Hs IH Hall]; cbn [group_insert group_get].
  - destruct (decide (k' = k)) as [E | E].
    + rewrite !bool_decide_eq_true_2 by exact E. reflexivity.
    + rewrite !bool_decide_eq_false_2 by exact E. reflexivity.
  - apply Forall_cons in Ht. destruct Ht as [Hk0 Ht]. cbn [fst] in Hk0.
    destruct (decide (k = k0)) as [E | E].
    + subst k0. rewrite (bool_decide_eq_true_2 (k = k)) by reflexivity.
      cbn [group_get].
      destruct (decide (k' = k)) as [E' | E'].
      * rewrite !bool_decide_eq_true_2 by exact E'. reflexivity.
      * rewrite !bool_decide_eq_false_2 by exact E'. reflexivity.
    + rewrite (bool_decide_eq_false_2 (k = k0)) by exact E.
      destruct (cell_ltb k k0) eqn:Elt.
      * cbn [group_get].
        assert (Habove : group_get k gs = []).
        { apply group_get_above; [exact Hk |].
          rewrite Forall_forall in *. intros g Hg.
          apply (text_ltb_trans k k0 (fst g)); auto. apply (Hall g Hg). }
        rewrite Habove.
        destruct (decide (k' = k)) as [E' | E'].
        -- rewrite !bool_decide_eq_true_2 by exact E'. reflexivity.
        -- rewrite !(bool_decide_eq_false_2 (k' = k)) by exact E'. reflexivity.
      * cbn [group_get]. rewrite (IH Ht).
        destruct (decide (k' = k)) as [E' | E'].
        -- subst k'. rewrite !(bool_decide_eq_true_2 (k = k)) by reflexivity.
           rewrite !(bool_decide_eq_false_2 (k = k0)) by exact E. reflexivity.
        -- rewrite !(bool_decide_eq_false_2 (k' = k)) by exact E'. reflexivity.
Qed.

Lemma group_rows_text (f : HoldingRecord -> float) (hs : list HoldingRecord)
    (gs : list (cell * Series)) (k : cell) :
  Forall (fun h => is_text (ticker h) = true \/ is_missing (ticker h) = true) hs ->
  is_missing k = false ->
  Forall (fun g => is_text (fst g) = true) gs ->
  StronglySorted key_before gs ->
  let gs' := group_rows (map ticker hs) (num_column f hs) gs in
  Forall (fun g => is_text (fst g) = true) gs' /\
  StronglySorted key_before gs' /\
  group_get k gs' = group_get k gs ++ num_column f (lots k hs).
Proof.
  intros Hhs Hk. revert gs. induction Hhs as [|h hs Hh Hhs IH]; intros gs Ht Hs.
  - cbv zeta. cbn [map num_column group_rows]. rewrite app_nil_r. auto.
  - cbv zeta. cbn [map num_column group_rows]. fold (num_column f hs).
    unfold lots. rewrite filter_cons. fold (lots k hs).
    destruct Hh as [Hh | Hh].
    + assert (Hm : is_missing (ticker h) = false)
        by (destruct (ticker h); [reflexivity | discriminate]).
      rewrite Hm.
      destruct (IH (group_insert (ticker h) (CNum (f h)) gs)
                   (group_insert_text _ _ _ Hh Ht)
                   (group_insert_sorted _ _ _ Hh Ht Hs)) as (H1 & H2 & H3).
      split; [exact H1 | split; [exact H2 |]].
      rewrite H3, (group_insert_get _ _ _ _ Hh Ht Hs).
      case_bool_decide as E; case_decide as E'; try congruence.
      subst k. unfold num_column. cbn [map]. rewrite <- app_assoc. reflexivity.
    + rewrite Hh. destruct (IH gs Ht Hs) as (H1 & H2 & H3).
      split; [exact H1 | split; [exact H2 |]].
      case_decide as E'; [| exact H3]. congruence.
Qed.

Lemma sorted_keys_NoDup (gs : list (cell * Series)) :
  Forall (fun g => is_text (fst g) = true) gs ->
  StronglySorted key_before gs ->
  NoDup (map fst gs).
Proof.
  intros Ht Hs. induction Hs as [|[k0 vs] gs Hs IH Hall]; cbn [map fst].
  - apply NoDup_nil_2.
  - apply Forall_cons in Ht. destruct Ht as [Hk0 Ht]. cbn [fst] in Hk0.
    apply NoDup_cons_2; [| apply IH, Ht].
    intros Hin. apply list_elem_of_fmap in Hin. destruct Hin as ([k1 v1] & -> & Hin).
    rewrite Forall_forall in Hall. specialize (Hall _ Hin).
    unfold key_before in Hall. cbn [fst] in Hall.
    rewrite text_ltb_irrefl in Hall by exact Hk0. discriminate.
Qed.

Lemma group_get_member (k : cell) (vs : Series) (gs : list (cell * Series)) :
  NoDup (map fst gs) -> (k, vs) ∈ gs -> group_get k gs = vs.
Proof.
  induction gs as [|[k0 vs0] gs IH]; cbn [map fst group_get]; intros Hnd Hin.
  - apply elem_of_nil in Hin. destruct Hin.
  - apply NoDup_cons in Hnd. destruct Hnd as [Hk0 Hnd].
    apply elem_of_cons in Hin. destruct Hin as [Hin | Hin].
    + injection Hin as -> ->. rewrite bool_decide_eq_true_2 by reflexivity. reflexivity.
    + case_bool_decide as E; [| apply IH; assumption].
      subst k0. exfalso. apply Hk0.
      apply list_elem_of_fmap. exists (k, vs). split; [reflexivity | exact Hin].
Qed.

Lemma map_CNum_inj (xs ys : list float) : map CNum xs = map CNum ys -> xs = ys.
Proof.
  revert ys. induction xs as [|x xs IH]; intros [|y ys] H; try discriminate;
    [reflexivity |].
  injection H as -> H. f_equal. apply IH, H.
Qed.

(** X13: for a table whose tickers are text or missing and whose current
    values are numbers, the chart data of line 134 exist (nothing raises)
    and have exactly one bar for every ticker of the table that is not
    missing, and for nothing else; the height of the bar is the compensated
    sum of the current values of the lots of that ticker, taken in the
    order of the rows; no bar is strictly taller than the bar before it.
    When at least one ticker is not missing, the maximum taken on line 139
    exists. *)
Theorem chart_has_a_bar_for_every_ticker (r : ref) (w : world) (df : DataFrame)
    (hs : list HoldingRecord) (f : HoldingRecord -> float) :
  heap w !! r = Some df ->
  getitem df "Ticker" = Ok (map ticker hs) ->
  getitem df "CurrentValue" = Ok (num_column f hs) ->
  Forall (fun h => is_text (ticker h) = true \/ is_missing (ticker h) = true) hs ->
  exists data : list (cell * float),
    chart_data r w = (Ok data, w) /\
    NoDup (map fst data) /\
    (forall k, k ∈ map fst data <-> k ∈ map ticker hs /\ is_missing k = false) /\
    (forall k v, (k, v) ∈ data -> v = group_total (map f (lots k hs))) /\
    Sorted not_after data /\
    ((exists h, h ∈ hs /\ is_missing (ticker h) = false) ->
       exists top, ndarray_max (map snd data) = Ok top).
Proof.
  intros Hr Ht Hv Htext.
  set (G := group_rows (map ticker hs) (num_column f hs) []).
  assert (HGt : Forall (fun g => is_text (fst g) = true) G)
    by (apply (group_rows_text f hs [] (CStr "k") Htext eq_refl); constructor).
  assert (HGs : StronglySorted key_before G)
    by (apply (group_rows_text f hs [] (CStr "k") Htext eq_refl); constructor).
  assert (HGg : forall k, is_missing k = false ->
                          group_get k G = num_column f (lots k hs))
    by (intros k Hk; apply (group_rows_text f hs [] k Htext Hk); constructor).
  destruct (sum_groups_numeric G) as (sums & Hs & Hk & Hval);
    [apply group_rows_numeric; constructor |].
  destruct (sort_values_desc_sorted sums) as [Hperm Hsorted].
  assert (Hkeys : forall k, k ∈ map fst (sort_values_desc sums) <->
                            k ∈ map ticker hs /\ is_missing k = false).
  { intros k. rewrite Hperm, Hk. unfold G. rewrite group_rows_keys.
    cbn [map]. rewrite elem_of_nil. tauto. }
  exists (sort_values_desc sums).
  split; [| split; [| split; [exact Hkeys | split; [| split; [exact Hsorted |]]]]].
  - unfold chart_data. run_steps. rewrite Hr. cbn [from_option id]. rewrite Ht.
    run_steps. rewrite Hr. cbn [from_option id]. rewrite Hv.
    run_steps. unfold lift, groupby_sum. fold G. rewrite Hs. reflexivity.
  - rewrite Hperm, Hk. apply sorted_keys_NoDup; assumption.
  - intros k v Hin.
    assert (Hmiss : is_missing k = false).
    { apply (Hkeys k). apply list_elem_of_fmap. exists (k, v). split; [reflexivity | exact Hin]. }
    rewrite Hperm in Hin.
    destruct (Hval k v Hin) as (xs & HinG & ->). f_equal.
    apply map_CNum_inj.
    rewrite <- (group_get_member k (map CNum xs) G
                  (sorted_keys_NoDup G HGt HGs) HinG).
    rewrite (HGg k Hmiss). unfold num_column. rewrite map_map. reflexivity.
  - intros (h & Hin & Hm).
    assert (Hk' : ticker h ∈ map fst (sort_values_desc sums)).
    { apply Hkeys. split; [| exact Hm]. apply list_elem_of_In, in_map, list_elem_of_In, Hin. }
    destruct (sort_values_desc sums) as [|[k x] rest].
    + apply elem_of_nil in Hk'. destruct Hk'.
    + eexists. reflexivity.
Qed.

Lemma chart_has_a_bar_for_every_ticker_witness :
  exists data : list (cell * float),
    chart_data 0 (snd (calculate_performance 0 (loaded_world lots_table lots_market))) =
      (Ok data, snd (calculate_performance 0 (loaded_world lots_table lots_market))) /\
    NoDup (map fst data) /\
    CStr "GOOG" ∈ map fst data.
Proof.
  pose (hs := [Holding (CStr "AAPL") (F64.of_Z 10) (F64.of_Z 150);
               Holding (CStr "AAPL") (F64.of_Z 5) (F64.of_Z 160);
               Holding (CStr "GOOG") (F64.of_Z 2) (F64.of_Z 2800)]).
  pose (q := live_quotes lots_market hs).
  assert (Hr : heap (snd (calculate_performance 0 (loaded_world lots_table lots_market)))
                 !! 0 = Some (with_metrics lots_table q hs)) by (vm_compute; reflexivity).
  assert (Htext : Forall (fun h => is_text (ticker h) = true \/
                                  is_missing (ticker h) = true) hs)
    by (repeat (constructor; [left; reflexivity |]); constructor).
  destruct (chart_has_a_bar_for_every_ticker 0 _ (with_metrics lots_table q hs) hs
              (current_value q) Hr eq_refl eq_refl Htext)
    as (data & Hrun & Hnd & Hkeys & _).
  exists data. split; [exact Hrun | split; [exact Hnd |]].
  apply Hkeys. split; [| reflexivity].
  apply list_elem_of_further, list_elem_of_further, list_elem_of_here.
Defined.

(** ** The whole run, further *)

Lemma main_report_file (w : world) (df : DataFrame) (hs : list HoldingRecord) :
  files w !! PORTFOLIO_CSV_PATH = Some (Csv df) ->
  has_holdings df hs ->
  files (snd (main w)) !! REPORT_CSV_PATH =
    Some (Csv (with_metrics df (live_quotes (market w) hs) hs)).
Proof.
  intros Hfile Hh.
  destruct (main_up_to_report w df hs Hfile Hh) as (w3 & Hmain & Hfiles & _).
  rewrite Hmain.
  rewrite bind_files by (intros a w'; run_steps; reflexivity).
  rewrite generate_visualization_files by discriminate.
  rewrite Hfiles. apply lookup_insert_eq.
Qed.

Lemma main_market : preserves market main.
Proof.
  unfold main. frame.
  all: first [ apply preserves_read_csv; reflexivity
             | apply fetch_prices_preserves; reflexivity
             | intros ?; reflexivity ].
Qed.

(** X14: a second run, the provider answering as in the first, writes the
    report the first run wrote: the portfolio file is read again as it was,
    and the report of the first run is neither read nor added to. *)
Theorem second_run_writes_the_same_report (w : world) (df : DataFrame)
    (hs : list HoldingRecord) :
  files w !! PORTFOLIO_CSV_PATH = Some (Csv df) ->
  has_holdings df hs ->
  files (snd (main (snd (main w)))) !! REPORT_CSV_PATH =
    files (snd (main w)) !! REPORT_CSV_PATH /\
  files (snd (main (snd (main w)))) !! PORTFOLIO_CSV_PATH = Some (Csv df).
Proof.
  intros Hfile Hh.
  assert (Hfile' : files (snd (main w)) !! PORTFOLIO_CSV_PATH = Some (Csv df)).
  { rewrite (main_files_elsewhere PORTFOLIO_CSV_PATH) by discriminate. exact Hfile. }
  split.
  - rewrite (main_report_file (snd (main w)) df hs Hfile' Hh).
    rewrite (main_report_file w df hs Hfile Hh).
    rewrite (main_market w). reflexivity.
  - rewrite (main_files_elsewhere PORTFOLIO_CSV_PATH) by discriminate. exact Hfile'.
Qed.

Lemma second_run_writes_the_same_report_witness :
  files (snd (main (snd (main (fresh_world lots_table lots_market))))) !! REPORT_CSV_PATH =
    files (snd (main (fresh_world lots_table lots_market))) !! REPORT_CSV_PATH.
Proof.
  assert (Hf : files (fresh_world lots_table lots_market) !! PORTFOLIO_CSV_PATH =
               Some (Csv lots_table)) by (vm_compute; reflexivity).
  assert (Hh : has_holdings lots_table
                 [Holding (CStr "AAPL") (F64.of_Z 10) (F64.of_Z 150);
                  Holding (CStr "AAPL") (F64.of_Z 5) (F64.of_Z 160);
                  Holding (CStr "GOOG") (F64.of_Z 2) (F64.of_Z 2800)])
    by (repeat split; reflexivity).
  destruct (second_run_writes_the_same_report (fresh_world lots_table lots_market)
              lots_table _ Hf Hh) as [Hsame _].
  exact Hsame.
Defined.

(** X15: for a portfolio file that holds at least one holding whose ticker
    is not missing, the run goes through to its end: [main] returns, the
    report and the chart are both written, the chart has a bar for every
    ticker and no other, and the last three lines on the console are the
    closing lines. *)
Theorem run_completes_for_a_portfolio_with_holdings (w : world) (df : DataFrame)
    (hs : list HoldingRecord) (h : HoldingRecord) :
  files w !! PORTFOLIO_CSV_PATH = Some (Csv df) ->
  has_holdings df hs ->
  h ∈ hs ->
  is_missing (ticker h) = false ->
  fst (main w) = Ok tt /\
  files (snd (main w)) !! REPORT_CSV_PATH =
    Some (Csv (with_metrics df (live_quotes (market w) hs) hs)) /\
  (exists bars : list bar,
     files (snd (main w)) !! CHART_PNG_PATH = Some (Png bars) /\
     forall k, k ∈ map bar_label bars <-> k ∈ map ticker hs /\ is_missing k = false) /\
  (exists before : list message,
     console (snd (main w)) =
       before ++ [[Lit (String (ascii_of_nat 10) "--- Portfolio analysis complete. ---")];
                  [Lit "Report: '"; Lit REPORT_CSV_PATH; Lit "'"];
                  [Lit "Chart: '"; Lit CHART_PNG_PATH; Lit "'"]]).
Proof.
  intros Hfile Hh Hin Hm.
  split; [| split; [apply (main_report_file w df hs Hfile Hh) |]].
  all: destruct (main_up_to_report w df hs Hfile Hh) as (w3 & Hmain & Hfiles & Hheap).
  all: assert (Hr3 : heap w3 !! length (heap w) =
                     Some (with_metrics df (live_quotes (market w) hs) hs))
    by (rewrite Hheap, lookup_app_r by lia;
        replace (length (heap w) - length (heap w)) with 0 by lia; reflexivity).
  all: destruct (with_metrics_derived df (live_quotes (market w) hs) hs)
    as (_ & _ & Hcv & _).
  all: destruct (has_holdings_with_metrics df (live_quotes (market w) hs) hs hs Hh)
    as (Htk & _).
  all: rewrite Hmain; unfold generate_visualization.
  all: rewrite bind_run, bind_run, print_run; cbv beta iota; rewrite bind_run.
  all: match goal with |- context [chart_data ?r ?w4] =>
         destruct (chart_data_run r w4 _ hs _ Hr3 Htk Hcv) as (sums & Hrun & Hk)
       end.
  all: destruct (sort_values_desc_sorted sums) as [Hperm _].
  all: assert (Hkeys : forall k, k ∈ map fst (sort_values_desc sums) <->
                                 k ∈ map ticker hs /\ is_missing k = false)
    by (intros k; rewrite Hperm; apply Hk).
  all: assert (Hk' : ticker h ∈ map fst (sort_values_desc sums))
    by (apply Hkeys; split; [apply list_elem_of_In, in_map, list_elem_of_In, Hin | exact Hm]).
  all: rewrite Hrun; cbv beta iota.
  all: destruct (sort_values_desc sums) as [|[k0 x0] rest] eqn:Edata;
    [apply elem_of_nil in Hk'; destruct Hk' |].
  all: run_steps; unfold lift, ndarray_max, write_file.
  all: cbn [map snd]; cbv beta iota; run_steps.
  - reflexivity.
  - cbn [snd files logged set_files]. split.
    + eexists. split; [apply lookup_insert_eq |].
      intros k. rewrite <- Hkeys. cbn [map fst bar_label].
      rewrite map_map. cbn [bar_label]. reflexivity.
    + cbn [console logged set_files].
      exists (console w3 ++ [[Lit "Generating portfolio distribution chart to '";
                              Lit CHART_PNG_PATH; Lit "'..."]]).
      rewrite <- !app_assoc. reflexivity.
Qed.

Lemma run_completes_for_a_portfolio_with_holdings_witness :
  fst (main (fresh_world gift_table silent_market)) = Ok tt.
Proof.
  assert (Hf : files (fresh_world gift_table silent_market) !! PORTFOLIO_CSV_PATH =
               Some (Csv gift_table)) by (vm_compute; reflexivity).
  assert (Hh : has_holdings gift_table [Holding (CStr "GIFT") (F64.of_Z 10) F64.zero])
    by (repeat split; reflexivity).
  destruct (run_completes_for_a_portfolio_with_holdings
              (fresh_world gift_table silent_market) gift_table
              [Holding (CStr "GIFT") (F64.of_Z 10) F64.zero]
              (Holding (CStr "GIFT") (F64.of_Z 10) F64.zero)
              Hf Hh (list_elem_of_here _ _) eq_refl) as [Hok _].
  exact Hok.
Defined.
